(** * User management endpoints: a shallow embedding

    Two Python modules are embedded:

    - [app/schemas/users.py], the in-memory variant: a dictionary [fake_db]
      and a module-level counter [user_id_counter] (module [Users]);
    - [main.py], the relational variant: six FastAPI handlers over one
      SQLite table [users], reached through a SQLAlchemy session
      (module [Main]).

    Dictionaries and the table are [gmap]s keyed by id.  Handlers of
    [main.py] run in a small state-and-exception monad over the database; an
    HTTP request is dispatched over the routes in the order in which the
    module registers them. *)

From stdpp Require Import gmap strings list fin_maps sorting.
From Stdlib Require Import ZArith DecimalString DecimalZ.

Open Scope Z_scope.

(** ** Python built-ins used by the handlers *)

Module Py.

(** [len(s)] of a [str].  Strings are modelled as sequences of one-byte
    characters, so [len] counts characters. *)
Definition len (s : string) : Z := Z.of_nat (String.length s).

(** [str(n)] of an [int], as the f-string of [delete_user] renders it. *)
Definition str (n : Z) : string := NilZero.string_of_int (Z.to_int n).

(** Reading an [int] from the text of a path segment: an optional minus
    sign followed by decimal digits.  The validation library reads a few
    more spellings as integers (a plus sign, blanks around the digits,
    underscores between them, a zero fraction); these are not modelled, so
    a segment is only ever taken here for the integer the library takes it
    for.  A text with a letter in it is not an integer either way. *)
Definition int (s : string) : option Z := Z.of_int <$> NilZero.int_of_string s.

End Py.

(** ** pydantic field constraints *)

Module Field.

(** [Field(..., min_length=lo, max_length=hi)] on a [str]. *)
Definition length_ok (min_length max_length : Z) (v : string) : bool :=
  (min_length <=? Py.len v) && (Py.len v <=? max_length).

(** [Field(..., ge=lo, le=hi)] on an [int]. *)
Definition ge_le (ge le v : Z) : bool := (ge <=? v) && (v <=? le).

(** [Field(..., gt=lo)] and [Query(..., gt=lo)]. *)
Definition gt (bound v : Z) : bool := bound <? v.

(** [Path(..., ge=lo)]. *)
Definition ge (bound v : Z) : bool := bound <=? v.

End Field.

(** ** [class GenderEnum(str, Enum)], declared alike in both modules *)

Inductive GenderEnum := male | female.

#[global] Instance GenderEnum_eq_dec : EqDecision GenderEnum.
Proof. solve_decision. Defined.

Module Gender.

(** The [str] value of a member. *)
Definition value (g : GenderEnum) : string :=
  match g with male => "male" | female => "female" end.

(** Validation of a raw value against the enumeration: exactly the two
    member values are accepted. *)
Definition validate (v : string) : option GenderEnum :=
  if String.eqb v "male" then Some male
  else if String.eqb v "female" then Some female
  else None.

End Gender.

(** ** HTTP-shaped requests and responses

    A request body is a JSON object whose known fields already have their
    JSON types (text, integer, text); a field that is missing or [null] is
    [None].  Query parameters are taken the same way. *)

Inductive Method := GET | POST | PUT | DELETE.

#[global] Instance Method_eq_dec : EqDecision Method.
Proof. solve_decision. Defined.

Record JsonBody := {
  j_username : option string;
  j_age : option Z;
  j_gender : option string
}.

Record QueryString := {
  q_username : option string;
  q_age : option Z;
  q_gender : option string
}.

Record Request := {
  method : Method;
  path : list string;          (* "/users/7" is ["users"; "7"] *)
  query : QueryString;
  body : option JsonBody
}.

(** What the client sees: the handler's return value (200), an
    [HTTPException(status_code=..., detail=...)], a request validation
    error (422), an unhandled exception (500), or the router's own 405 and
    404. *)
Inductive Response (C : Type) :=
| OK (content : C)
| HTTPError (status : Z) (detail : string)
| ValidationError
| InternalServerError
| MethodNotAllowed
| NoRoute.

Arguments OK {C} content.
Arguments HTTPError {C} status detail.
Arguments ValidationError {C}.
Arguments InternalServerError {C}.
Arguments MethodNotAllowed {C}.
Arguments NoRoute {C}.

Definition status_code {C} (r : Response C) : Z :=
  match r with
  | OK _ => 200
  | HTTPError status _ => status
  | ValidationError => 422
  | InternalServerError => 500
  | MethodNotAllowed => 405
  | NoRoute => 404
  end.

(** The only [HTTPException] the handlers raise has status 404. *)
Definition NotFound {C} (detail : string) : Response C := HTTPError 404 detail.

(** ** Routing: first full match in registration order

    A route is a method and a path pattern; [{user_id}] matches any
    non-empty segment, whatever the declared type of the parameter: the
    text is turned into an [int] later, when the parameters are bound.
    The router walks the routes in the order of their decorators and hands
    the request to the first route whose path and method both match; when
    only paths matched the answer is 405, when nothing matched the request
    is not for these routes. *)

Inductive Segment := Lit (s : string) | Param.

Fixpoint match_path (pat : list Segment) (p : list string) : option (list string) :=
  match pat, p with
  | [], [] => Some []
  | Lit s :: pat', x :: p' =>
      if String.eqb s x then match_path pat' p' else None
  | Param :: pat', x :: p' =>
      if String.eqb x "" then None else cons x <$> match_path pat' p'
  | _, _ => None
  end.

Inductive Match (E : Type) :=
| Full (endpoint : E) (path_params : list string)
| Partial
| Nothing.

Arguments Full {E} endpoint path_params.
Arguments Partial {E}.
Arguments Nothing {E}.

Fixpoint route {E} (routes : list (Method * list Segment * E))
    (m : Method) (p : list string) : Match E :=
  match routes with
  | [] => Nothing
  | (m', pat, e) :: rest =>
      match match_path pat p with
      | Some params =>
          if decide (m' = m) then Full e params
          else match route rest m p with
               | Full e' params' => Full e' params'
               | _ => Partial
               end
      | None => route rest m p
      end
  end.

(** ** [app/schemas/users.py]: the in-memory store *)

Module Users.

Module UserCreate.
Record t := { username : string; age : Z; gender : GenderEnum }.

(** Validation of a request body against the model: every field is
    required, [username] has 1 to 50 characters, [age] lies in 0..120,
    [gender] is a member of the enumeration. *)
Definition validate (b : JsonBody) : option t :=
  match j_username b, j_age b, j_gender b with
  | Some u, Some a, Some g =>
      match Gender.validate g with
      | Some g' =>
          if Field.length_ok 1 50 u && Field.ge_le 0 120 a
          then Some {| username := u; age := a; gender := g' |}
          else None
      | None => None
      end
  | _, _, _ => None
  end.
End UserCreate.

Module UserModel.
Record t := { id : Z; username : string; age : Z; gender : GenderEnum }.
End UserModel.

(** The two module-level globals. *)
Record State := {
  fake_db : gmap Z UserModel.t;
  user_id_counter : Z
}.

Definition initial : State := {| fake_db := ∅; user_id_counter := 1 |}.

Definition create_user (user : UserCreate.t) (st : State) : Z * State :=
  let new_user :=
    {| UserModel.id := user_id_counter st;
       UserModel.username := UserCreate.username user;
       UserModel.age := UserCreate.age user;
       UserModel.gender := UserCreate.gender user |} in
  (UserModel.id new_user,
   {| fake_db := <[user_id_counter st := new_user]> (fake_db st);
      user_id_counter := user_id_counter st + 1 |}).

Inductive Endpoint := create_user_endpoint.

Definition routes : list (Method * list Segment * Endpoint) :=
  [ (POST, [Lit "users"], create_user_endpoint) ].

Definition app (req : Request) (st : State) : Response Z * State :=
  match route routes (method req) (path req) with
  | Full create_user_endpoint _ =>
      match body req ≫= UserCreate.validate with
      | Some user => let '(i, st') := create_user user st in (OK i, st')
      | None => (ValidationError, st)
      end
  | Partial => (MethodNotAllowed, st)
  | Nothing => (NoRoute, st)
  end.

(** Serving a sequence of requests, oldest first. *)
Fixpoint serve (reqs : list Request) (st : State) : list (Response Z) * State :=
  match reqs with
  | [] => ([], st)
  | req :: reqs' =>
      let '(r, st') := app req st in
      let '(rs, st'') := serve reqs' st' in
      (r :: rs, st'')
  end.

End Users.

(** ** [main.py]: the relational store *)

Module Main.

(** *** Request and response models *)

Module UserCreateRequest.
Record t := { username : string; age : Z; gender : GenderEnum }.

Definition validate (b : JsonBody) : option t :=
  match j_username b, j_age b, j_gender b with
  | Some u, Some a, Some g =>
      match Gender.validate g with
      | Some g' =>
          if Field.length_ok 1 50 u && Field.ge_le 0 120 a
          then Some {| username := u; age := a; gender := g' |}
          else None
      | None => None
      end
  | _, _, _ => None
  end.
End UserCreateRequest.

Module UserUpdateRequest.
Record t := { username : option string; age : option Z }.

(** Both fields default to [None]; a field that is present is checked
    against its constraints.  Other keys of the body are ignored. *)
Definition validate (b : JsonBody) : option t :=
  if from_option (Field.length_ok 1 50) true (j_username b)
     && from_option (Field.ge_le 0 120) true (j_age b)
  then Some {| username := j_username b; age := j_age b |}
  else None.
End UserUpdateRequest.

Module UserQueryParams.
Record t := { username : string; age : Z; gender : GenderEnum }.

(** [UserQueryParams(username=..., age=..., gender=...)]. *)
Definition validate (username : string) (age : Z) (gender : GenderEnum) : option t :=
  if Field.length_ok 1 50 username && Field.gt 0 age
  then Some {| username := username; age := age; gender := gender |}
  else None.
End UserQueryParams.

(** *** The table [users] and the session

    A row holds the columns other than the primary key; the table maps
    the primary key [id] to its row, so ids are unique by construction.
    [calls] records, newest first, the session methods a handler has
    invoked: a request that leaves it untouched did not reach the
    store. *)

Record Row := { row_username : string; row_age : Z; row_gender : GenderEnum }.

Inductive Call := Query | Add | Commit | Refresh | Delete.

Record Database := {
  users : gmap Z Row;
  calls : list Call
}.

Definition empty_database : Database := {| users := ∅; calls := [] |}.

Inductive Exception :=
| HTTPException (status_code : Z) (detail : string)
| RequestValidationError        (* raised by the framework while binding *)
| AttributeError                (* attribute access on [None] *)
| PydanticValidationError       (* a model validated inside a handler *)
| InvalidRequestError           (* refresh of an object whose row is gone *)
| OverflowError.                (* an integer too large for an SQL parameter *)

Inductive Result (A : Type) := Return (a : A) | Raise (e : Exception).
Arguments Return {A} a.
Arguments Raise {A} e.

Definition M (A : Type) : Type := Database → Result A * Database.

#[global] Instance M_ret : MRet M := λ A a db, (Return a, db).

#[global] Instance M_bind : MBind M := λ A B f m db,
  match m db with
  | (Return a, db') => f a db'
  | (Raise e, db') => (Raise e, db')
  end.

Definition raise {A} (e : Exception) : M A := λ db, (Raise e, db).

Definition called (c : Call) : M unit :=
  λ db, (Return (), {| users := users db; calls := c :: calls db |}).

Definition table : M (gmap Z Row) := λ db, (Return (users db), db).

Definition store (t : gmap Z Row) : M unit :=
  λ db, (Return (), {| users := t; calls := calls db |}).

(** The rowid SQLite gives an inserted row.  The column is declared
    [Column(Integer, primary_key=True, autoincrement=True)] on a
    [sqlite://] engine: SQLAlchemy emits [INTEGER ... PRIMARY KEY] without
    the [AUTOINCREMENT] keyword (that needs [sqlite_autoincrement=True]),
    so the id is an alias of the rowid and a new row gets one more than
    the largest rowid present, or 1 in an empty table.  The 64-bit
    ceiling of rowids is outside the model. *)
Definition largest (l : list Z) : option Z :=
  foldr (λ k acc, Some (from_option (Z.max k) k acc)) None l.

Definition largest_rowid (t : gmap Z Row) : option Z :=
  largest (map_to_list t).*1.

Definition next_rowid (t : gmap Z Row) : Z :=
  match largest_rowid t with
  | Some m => m + 1
  | None => 1
  end.

Module UserModel.
(** An instance loaded from, or flushed to, the table. *)
Record t := { id : Z; username : string; age : Z; gender : GenderEnum }.

Definition of_row (i : Z) (r : Row) : t :=
  {| id := i; username := row_username r; age := row_age r;
     gender := row_gender r |}.

Definition to_row (u : t) : Row :=
  {| row_username := username u; row_age := age u; row_gender := gender u |}.
End UserModel.

(** The integers SQLite stores and takes as parameters. *)
Definition int64 (n : Z) : bool := (- 2 ^ 63 <=? n) && (n <? 2 ^ 63).

(** A scan of the table loads the rows in ascending rowid order. *)
Definition rowid_le (x y : Z * Row) : Prop := x.1 ≤ y.1.

#[global] Instance rowid_le_dec : RelDecision rowid_le :=
  λ x y, decide (x.1 ≤ y.1).

Definition scan (t : gmap Z Row) : list UserModel.t :=
  uncurry UserModel.of_row <$> merge_sort rowid_le (map_to_list t).

Module Session.

(** [db.query(UserModel).all()]. *)
Definition query_all : M (list UserModel.t) :=
  called Query ;;
  t ← table;
  mret (scan t).

(** [db.query(UserModel).filter(UserModel.id == user_id).first()].  The id
    of a stored row is a rowid and fits 64 bits.  An id that is not stored
    and does not fit cannot be bound into the query: the code fails there,
    and the model, which says that nothing was found, is not to be used
    for such ids. *)
Definition query_first (user_id : Z) : M (option UserModel.t) :=
  called Query ;;
  t ← table;
  mret (UserModel.of_row user_id <$> t !! user_id).

(** [db.query(UserModel).filter_by(username=, age=, gender=).all()]: the
    age is bound into the query as a 64-bit integer. *)
Definition query_filter_by (username : string) (age : Z) (gender : GenderEnum)
    : M (list UserModel.t) :=
  called Query ;;
  (if int64 age then mret () else raise OverflowError) ;;
  t ← table;
  mret (filter (λ u, UserModel.username u = username
                     ∧ UserModel.age u = age
                     ∧ UserModel.gender u = gender)
               (scan t)).

(** [db.add(user)]: the new object is pending until the commit. *)
Definition add : M unit := called Add.

(** [db.commit()] with a pending new object: the row is inserted
    under the rowid the engine assigns. *)
Definition commit_new (r : Row) : M Z :=
  called Commit ;;
  t ← table;
  let i := next_rowid t in
  store (<[i := r]> t) ;;
  mret i.

(** [db.commit()] after attribute assignments on a loaded object: its
    columns are written back under its primary key. *)
Definition commit_dirty (u : UserModel.t) : M unit :=
  called Commit ;;
  t ← table;
  store (<[UserModel.id u := UserModel.to_row u]> t).

(** [db.delete(user)] marks the object; the commit removes its row. *)
Definition delete : M unit := called Delete.

Definition commit_deleted (u : UserModel.t) : M unit :=
  called Commit ;;
  t ← table;
  store (base.delete (UserModel.id u) t).

(** [db.refresh(user)]: the attributes are read again from the row. *)
Definition refresh (i : Z) : M UserModel.t :=
  called Refresh ;;
  t ← table;
  match t !! i with
  | Some r => mret (UserModel.of_row i r)
  | None => raise InvalidRequestError
  end.

End Session.

(** [UserModel.create], [UserModel.all] and [user.delete]. *)

Definition UserModel_create (kwargs : UserCreateRequest.t) : M UserModel.t :=
  let user :=
    {| row_username := UserCreateRequest.username kwargs;
       row_age := UserCreateRequest.age kwargs;
       row_gender := UserCreateRequest.gender kwargs |} in
  Session.add ;;
  i ← Session.commit_new user;
  Session.refresh i.

Definition UserModel_all : M (list UserModel.t) := Session.query_all.

Definition UserModel_delete (self : UserModel.t) : M unit :=
  Session.delete ;;
  Session.commit_deleted self.

Module UserResponse.
Record t := { id : Z; username : string; age : Z; gender : GenderEnum }.

(** The class declares no [model_config], so [from_attributes] has its
    default. *)
Definition from_attributes : bool := false.

(** [UserResponse.model_validate(obj)] on an instance of the ORM class
    [UserModel].  The attributes of an object are read only under
    [from_attributes]; without it the object is neither a dictionary nor a
    [UserResponse], and validation fails. *)
Definition model_validate (obj : UserModel.t) : M t :=
  if from_attributes
  then mret {| id := UserModel.id obj; username := UserModel.username obj;
               age := UserModel.age obj; gender := UserModel.gender obj |}
  else raise PydanticValidationError.
End UserResponse.

(** *** The handlers *)

Inductive Content :=
| IdContent (id : Z)                          (* {"id": ...} *)
| UserContent (user : UserResponse.t)
| UsersContent (users : list UserResponse.t)
| DetailContent (detail : string).            (* {"detail": ...} *)

Definition create_user (data : UserCreateRequest.t) : M Content :=
  user ← UserModel_create data;
  mret (IdContent (UserModel.id user)).

Definition get_all_users : M Content :=
  users ← UserModel_all;
  match users with
  | [] => raise (HTTPException 404 "No users found")
  | _ =>
      responses ← mapM UserResponse.model_validate users;
      mret (UsersContent responses)
  end.

Definition get_user (user_id : Z) : M Content :=
  user ← Session.query_first user_id;
  match user with
  | None => raise (HTTPException 404 "User not found")
  | Some user =>
      response ← UserResponse.model_validate user;
      mret (UserContent response)
  end.

(** [data] is declared [UserUpdateRequest = None]: a request without a
    body reaches the handler with [data = None], and [data.username]
    then raises. *)
Definition update_user (user_id : Z) (data : option UserUpdateRequest.t) : M Content :=
  user ← Session.query_first user_id;
  match user with
  | None => raise (HTTPException 404 "User not found")
  | Some user =>
      match data with
      | None => raise AttributeError
      | Some data =>
          let user :=
            match UserUpdateRequest.username data with
            | Some username =>
                {| UserModel.id := UserModel.id user;
                   UserModel.username := username;
                   UserModel.age := UserModel.age user;
                   UserModel.gender := UserModel.gender user |}
            | None => user
            end in
          let user :=
            match UserUpdateRequest.age data with
            | Some age =>
                {| UserModel.id := UserModel.id user;
                   UserModel.username := UserModel.username user;
                   UserModel.age := age;
                   UserModel.gender := UserModel.gender user |}
            | None => user
            end in
          Session.commit_dirty user ;;
          user ← Session.refresh (UserModel.id user);
          response ← UserResponse.model_validate user;
          mret (UserContent response)
      end
  end.

Definition delete_user (user_id : Z) : M Content :=
  user ← Session.query_first user_id;
  match user with
  | None => raise (HTTPException 404 "User not found")
  | Some user =>
      UserModel_delete user ;;
      mret (DetailContent ("User: " +:+ Py.str user_id +:+ ", Successfully Deleted."))
  end.

Definition search_users (username : string) (age : Z) (gender : GenderEnum) : M Content :=
  match UserQueryParams.validate username age gender with
  | None => raise PydanticValidationError
  | Some params =>
      users ← Session.query_filter_by (UserQueryParams.username params)
                (UserQueryParams.age params) (UserQueryParams.gender params);
      match users with
      | [] => raise (HTTPException 404 "No matching users found")
      | _ =>
          responses ← mapM UserResponse.model_validate users;
          mret (UsersContent responses)
      end
  end.

(** *** Binding of the declared parameters

    The framework binds and validates every declared parameter before
    it calls the handler; a failure is a [RequestValidationError].  The
    session of [Depends(get_db)] is opened and closed around the call
    without touching the database by itself. *)

(** [user_id: int = Path(..., ge=1)]. *)
Definition bind_user_id (path_params : list string) : M Z :=
  match path_params with
  | [s] =>
      match Py.int s with
      | Some n => if Field.ge 1 n then mret n else raise RequestValidationError
      | None => raise RequestValidationError
      end
  | _ => raise RequestValidationError
  end.

(** [data: UserCreateRequest], a required body. *)
Definition bind_create_body (b : option JsonBody) : M UserCreateRequest.t :=
  match b ≫= UserCreateRequest.validate with
  | Some data => mret data
  | None => raise RequestValidationError
  end.

(** [data: UserUpdateRequest = None], an optional body. *)
Definition bind_update_body (b : option JsonBody) : M (option UserUpdateRequest.t) :=
  match b with
  | None => mret None
  | Some b =>
      match UserUpdateRequest.validate b with
      | Some data => mret (Some data)
      | None => raise RequestValidationError
      end
  end.

(** The three [Query(...)] parameters of [search_users]. *)
Definition bind_search_query (q : QueryString) : M (string * Z * GenderEnum) :=
  match q_username q, q_age q, q_gender q ≫= Gender.validate with
  | Some username, Some age, Some gender =>
      if Field.length_ok 1 50 username && Field.gt 0 age
      then mret (username, age, gender)
      else raise RequestValidationError
  | _, _, _ => raise RequestValidationError
  end.

(** *** The application *)

Inductive Endpoint :=
| create_user_endpoint
| get_all_users_endpoint
| get_user_endpoint
| update_user_endpoint
| delete_user_endpoint
| search_users_endpoint.

(** The routes, in the order of the decorators in the module. *)
Definition routes : list (Method * list Segment * Endpoint) :=
  [ (POST,   [Lit "users"],               create_user_endpoint);
    (GET,    [Lit "users"],               get_all_users_endpoint);
    (GET,    [Lit "users"; Param],        get_user_endpoint);
    (PUT,    [Lit "users"; Param],        update_user_endpoint);
    (DELETE, [Lit "users"; Param],        delete_user_endpoint);
    (GET,    [Lit "users"; Lit "search"], search_users_endpoint) ].

(** One endpoint: bind the parameters, then run the handler. *)
Definition endpoint (e : Endpoint) (path_params : list string) (req : Request) : M Content :=
  match e with
  | create_user_endpoint =>
      data ← bind_create_body (body req);
      create_user data
  | get_all_users_endpoint => get_all_users
  | get_user_endpoint =>
      user_id ← bind_user_id path_params;
      get_user user_id
  | update_user_endpoint =>
      user_id ← bind_user_id path_params;
      data ← bind_update_body (body req);
      update_user user_id data
  | delete_user_endpoint =>
      user_id ← bind_user_id path_params;
      delete_user user_id
  | search_users_endpoint =>
      '(username, age, gender) ← bind_search_query (query req);
      search_users username age gender
  end.

(** How the framework answers for a handler's outcome. *)
Definition respond (r : Result Content) : Response Content :=
  match r with
  | Return c => OK c
  | Raise (HTTPException status detail) => HTTPError status detail
  | Raise RequestValidationError => ValidationError
  | Raise _ => InternalServerError
  end.

Definition app (req : Request) (db : Database) : Response Content * Database :=
  match route routes (method req) (path req) with
  | Full e path_params =>
      let '(r, db') := endpoint e path_params req db in (respond r, db')
  | Partial => (MethodNotAllowed, db)
  | Nothing => (NoRoute, db)
  end.

(** Serving a sequence of requests, oldest first. *)
Fixpoint serve (reqs : list Request) (db : Database)
    : list (Response Content) * Database :=
  match reqs with
  | [] => ([], db)
  | req :: reqs' =>
      let '(r, db') := app req db in
      let '(rs, db'') := serve reqs' db' in
      (r :: rs, db'')
  end.

(** Every stored id is at least 1. *)
Definition positive_ids (db : Database) : Prop :=
  map_Forall (λ i _, 1 ≤ i) (users db).

End Main.

(** Request builders. *)

Definition no_query : QueryString :=
  {| q_username := None; q_age := None; q_gender := None |}.

Definition request (m : Method) (p : list string) (b : option JsonBody) : Request :=
  {| method := m; path := p; query := no_query; body := b |}.

Definition user_json (username : string) (age : Z) (gender : string) : JsonBody :=
  {| j_username := Some username; j_age := Some age; j_gender := Some gender |}.

Definition update_json (username : option string) (age : option Z) : JsonBody :=
  {| j_username := username; j_age := age; j_gender := None |}.

Definition search_query (username : string) (age : Z) (gender : string) : QueryString :=
  {| q_username := Some username; q_age := Some age; q_gender := Some gender |}.


(** A database holding one user, with id 1. *)

Definition kim_row : Main.Row :=
  {| Main.row_username := "kim"; Main.row_age := 20; Main.row_gender := male |}.

Definition kim_only : Main.Database :=
  {| Main.users := {[ 1 := kim_row ]}; Main.calls := [] |}.

(** The ids a sequence of responses of the in-memory variant carries. *)
Definition issued (rs : list (Response Z)) : list Z :=
  omap (λ r, match r with OK i => Some i | _ => None end) rs.

(** A username of fifty characters. *)
Definition fifty : string := "abcdefghijklmnopqrstuvwxyabcdefghijklmnopqrstuvwxy".

(** ** Vocabulary of the statements *)

(** The database after a handler has made the session calls [cs] (newest
    first) and left the table as [t]. *)
Definition after (cs : list Main.Call) (t : gmap Z Main.Row) (db : Main.Database)
    : Main.Database :=
  {| Main.users := t; Main.calls := cs ++ Main.calls db |}.

(** The row [r] with the fields an update request gives written over. *)
Definition updated (data : Main.UserUpdateRequest.t) (r : Main.Row) : Main.Row :=
  {| Main.row_username := default (Main.row_username r) (Main.UserUpdateRequest.username data);
     Main.row_age := default (Main.row_age r) (Main.UserUpdateRequest.age data);
     Main.row_gender := Main.row_gender r |}.

(** The row [r] agrees with a search query on all three fields. *)
Definition row_matches (u : string) (a : Z) (g : GenderEnum) (r : Main.Row) : Prop :=
  Main.row_username r = u ∧ Main.row_age r = a ∧ Main.row_gender r = g.

(** Validity of the fields of an update and of a create request. *)
Definition username_ok (u : option string) : Prop :=
  match u with Some u => 1 ≤ Py.len u ≤ 50 | None => True end.

Definition age_ok (a : option Z) : Prop :=
  match a with Some a => 0 ≤ a ≤ 120 | None => True end.

#[global] Instance username_ok_dec u : Decision (username_ok u).
Proof. destruct u; simpl; apply _. Defined.

#[global] Instance age_ok_dec a : Decision (age_ok a).
Proof. destruct a; simpl; apply _. Defined.

Definition valid_user (u : string) (a : Z) (g : string) : Prop :=
  1 ≤ Py.len u ≤ 50 ∧ 0 ≤ a ≤ 120 ∧ (g = "male" ∨ g = "female").

#[global] Instance valid_user_dec u a g : Decision (valid_user u a g).
Proof. unfold valid_user. apply _. Defined.

(** ** What an endpoint does to the table

    A run of an endpoint either writes nothing or is one of three writes:
    the insertion of a new row, the rewriting of a stored row, the removal
    of a stored row. *)

Definition row_of (data : Main.UserCreateRequest.t) : Main.Row :=
  {| Main.row_username := Main.UserCreateRequest.username data;
     Main.row_age := Main.UserCreateRequest.age data;
     Main.row_gender := Main.UserCreateRequest.gender data |}.

(** The outcomes an endpoint can have without writing. *)
Definition quiet (e : Main.Endpoint) (req : Request) (res : Main.Result Main.Content)
    : Prop :=
  match res with
  | Main.Return _ => False
  | Main.Raise (Main.HTTPException status _) =>
      status = 404 ∧ e ≠ Main.create_user_endpoint
  | Main.Raise Main.RequestValidationError => e ≠ Main.get_all_users_endpoint
  | Main.Raise Main.AttributeError =>
      e = Main.update_user_endpoint ∧ body req = None
  | Main.Raise Main.PydanticValidationError =>
      e = Main.get_all_users_endpoint ∨ e = Main.get_user_endpoint
      ∨ e = Main.search_users_endpoint
  | Main.Raise Main.OverflowError => e = Main.search_users_endpoint
  | Main.Raise Main.InvalidRequestError => False
  end.

Inductive Step (db : Main.Database) (req : Request)
    : Main.Endpoint → Main.Result Main.Content → gmap Z Main.Row → Prop :=
| step_quiet e res :
    quiet e req res → Step db req e res (Main.users db)
| step_create data :
    body req ≫= Main.UserCreateRequest.validate = Some data →
    Step db req Main.create_user_endpoint
      (Main.Return (Main.IdContent (Main.next_rowid (Main.users db))))
      (<[Main.next_rowid (Main.users db) := row_of data]> (Main.users db))
| step_update n r j data :
    1 ≤ n → Main.users db !! n = Some r →
    body req = Some j → Main.UserUpdateRequest.validate j = Some data →
    Step db req Main.update_user_endpoint
      (Main.Raise Main.PydanticValidationError)
      (<[n := updated data r]> (Main.users db))
| step_delete n r :
    1 ≤ n → Main.users db !! n = Some r →
    Step db req Main.delete_user_endpoint
      (Main.Return (Main.DetailContent
         ("User: " +:+ Py.str n +:+ ", Successfully Deleted.")))
      (delete n (Main.users db)).

(** The method under which the module registers an endpoint. *)
Definition method_of (e : Main.Endpoint) : Method :=
  match e with
  | Main.create_user_endpoint => POST
  | Main.update_user_endpoint => PUT
  | Main.delete_user_endpoint => DELETE
  | _ => GET
  end.

(** The ids that the create responses of the relational variant carry. *)
Definition created (rs : list (Response Main.Content)) : list Z :=
  omap (λ r, match r with OK (Main.IdContent i) => Some i | _ => None end) rs.

(** Bounds of the stored fields. *)
Definition row_valid (r : Main.Row) : Prop :=
  1 ≤ Py.len (Main.row_username r) ≤ 50 ∧ 0 ≤ Main.row_age r ≤ 120.

Definition rows_valid (db : Main.Database) : Prop :=
  map_Forall (λ _ r, row_valid r) (Main.users db).

(** The in-memory variant: every key is an id already handed out, and a
    record is stored under its own id. *)
Definition users_wf (st : Users.State) : Prop :=
  1 ≤ Users.user_id_counter st
  ∧ map_Forall (λ k u, 1 ≤ k < Users.user_id_counter st ∧ Users.UserModel.id u = k)
               (Users.fake_db st).

Definition users_record (i : Z) (u : string) (a : Z) (g : GenderEnum)
    : Users.UserModel.t :=
  {| Users.UserModel.id := i; Users.UserModel.username := u;
     Users.UserModel.age := a; Users.UserModel.gender := g |}.

(** * Properties *)

(** Unfolding of the monad and of the session methods. *)
Ltac run :=
  cbv [mbind mret Main.M_bind Main.M_ret Main.raise Main.called Main.table
       Main.store Main.Session.query_first Main.Session.query_all
       Main.Session.query_filter_by Main.Session.add Main.Session.commit_new
       Main.Session.commit_dirty Main.Session.delete
       Main.Session.commit_deleted Main.Session.refresh
       Main.UserModel_create Main.UserModel_all Main.UserModel_delete
       Main.UserResponse.model_validate Main.UserResponse.from_attributes].


(** ** Decimal text of integers *)

Lemma to_int_not_nil (n : Z) :
  Z.to_int n ≠ Decimal.Pos Decimal.Nil ∧ Z.to_int n ≠ Decimal.Neg Decimal.Nil.
Proof.
  destruct n as [|p|p]; simpl; split; try discriminate;
    intros [= H]; by apply (DecimalPos.Unsigned.to_uint_nonnil p).
Qed.

Lemma int_str (n : Z) : Py.int (Py.str n) = Some n.
Proof.
  unfold Py.int, Py.str.
  destruct (to_int_not_nil n) as [Hp Hn].
  rewrite NilZero.isi by assumption. simpl. f_equal. apply DecimalZ.of_to.
Qed.

Lemma int_nonempty (s : string) (n : Z) : Py.int s = Some n → s ≠ "".
Proof. intros H ->. discriminate H. Qed.

(** ** The table: rowids and scans *)

Section rowids.
Implicit Types (t : gmap Z Main.Row) (l : list Z).

Lemma largest_None l : Main.largest l = None → l = [].
Proof. by destruct l. Qed.

Lemma largest_Some l m :
  Main.largest l = Some m → m ∈ l ∧ ∀ k, k ∈ l → k ≤ m.
Proof.
  revert m. induction l as [|x l IH]; intros m; [done|].
  simpl. fold (Main.largest l). destruct (Main.largest l) as [m'|] eqn:E; simpl.
  - intros [= <-]. destruct (IH m' eq_refl) as [Hin Hle]. split.
    + destruct (Z.max_spec x m') as [[_ ->]|[_ ->]];
        apply elem_of_cons; auto.
    + intros k [->|Hk]%elem_of_cons; [lia|]. specialize (Hle k Hk). lia.
  - intros [= <-]. apply largest_None in E as ->.
    split; [apply elem_of_cons; auto|].
    intros k [->|Hk]%elem_of_cons; [lia|]. by apply elem_of_nil in Hk.
Qed.

Lemma keys_lookup t k : k ∈ (map_to_list t).*1 ↔ is_Some (t !! k).
Proof.
  rewrite list_elem_of_fmap. split.
  - intros [[k' r] [-> H]]. apply elem_of_map_to_list in H. by exists r.
  - intros [r H]. exists (k, r). split; [done|]. by apply elem_of_map_to_list.
Qed.

Lemma next_rowid_fresh t : t !! Main.next_rowid t = None.
Proof.
  unfold Main.next_rowid, Main.largest_rowid.
  destruct (Main.largest _) as [m|] eqn:E.
  - apply largest_Some in E as [_ Hle].
    destruct (t !! (m + 1)) as [r|] eqn:Hr; [|done].
    assert (m + 1 ≤ m); [|lia]. apply Hle, keys_lookup. by exists r.
  - apply largest_None, fmap_nil_inv, map_to_list_empty_iff in E as ->.
    apply lookup_empty.
Qed.

Lemma next_rowid_positive t :
  map_Forall (λ i _, 1 ≤ i) t → 1 ≤ Main.next_rowid t.
Proof.
  intros Hpos. unfold Main.next_rowid, Main.largest_rowid.
  destruct (Main.largest _) as [m|] eqn:E; [|lia].
  apply largest_Some in E as [[r Hm]%keys_lookup _].
  specialize (Hpos m r Hm). simpl in Hpos. lia.
Qed.

Lemma of_row_to_row (u : Main.UserModel.t) :
  Main.UserModel.of_row (Main.UserModel.id u) (Main.UserModel.to_row u) = u.
Proof. by destruct u. Qed.

Lemma elem_of_scan t (u : Main.UserModel.t) :
  u ∈ Main.scan t ↔ t !! Main.UserModel.id u = Some (Main.UserModel.to_row u).
Proof.
  unfold Main.scan. rewrite list_elem_of_fmap. split.
  - intros [[i r] [-> H]]. rewrite merge_sort_Permutation in H.
    apply elem_of_map_to_list in H. by destruct r.
  - intros H. exists (Main.UserModel.id u, Main.UserModel.to_row u). split.
    + simpl. by rewrite of_row_to_row.
    + rewrite merge_sort_Permutation. by apply elem_of_map_to_list.
Qed.

Lemma NoDup_scan t : NoDup (Main.scan t).
Proof.
  unfold Main.scan. apply NoDup_fmap_2.
  - intros [i r] [i' r'] H. destruct r, r'. by injection H as -> -> -> ->.
  - rewrite merge_sort_Permutation. apply NoDup_map_to_list.
Qed.

Lemma scan_nil t : Main.scan t = [] ↔ t = ∅.
Proof.
  unfold Main.scan. split.
  - intros H%fmap_nil_inv. apply map_to_list_empty_iff.
    apply Permutation_nil_r. by rewrite <- (merge_sort_Permutation Main.rowid_le), H.
  - intros ->. by rewrite map_to_list_empty.
Qed.

End rowids.

(** ** Routing *)

Lemma route_users_id (m : Method) (s : string) :
  s ≠ "" →
  route Main.routes m ["users"; s] =
    match m with
    | GET => Full Main.get_user_endpoint [s]
    | PUT => Full Main.update_user_endpoint [s]
    | DELETE => Full Main.delete_user_endpoint [s]
    | POST => Partial
    end.
Proof.
  intros Hs. apply String.eqb_neq in Hs.
  destruct m; cbn -[String.eqb]; rewrite ?String.eqb_refl, Hs; cbn -[String.eqb];
    try done.
  by destruct (String.eqb "search" s).
Qed.

(** ** The handlers, run on a database *)

Lemma bind_user_id_ok s n db :
  Py.int s = Some n → 1 ≤ n → Main.bind_user_id [s] db = (Main.Return n, db).
Proof.
  intros Hs Hn. unfold Main.bind_user_id, Field.ge. rewrite Hs.
  by destruct (Z.leb_spec 1 n); [|lia].
Qed.

Lemma bind_user_id_bad s n db :
  Py.int s = Some n → n < 1 →
  Main.bind_user_id [s] db = (Main.Raise Main.RequestValidationError, db).
Proof.
  intros Hs Hn. unfold Main.bind_user_id, Field.ge. rewrite Hs.
  by destruct (Z.leb_spec 1 n); [lia|].
Qed.

Lemma get_user_run n db :
  Main.get_user n db =
    (match Main.users db !! n with
     | Some r => Main.Raise Main.PydanticValidationError
     | None => Main.Raise (Main.HTTPException 404 "User not found")
     end, after [Main.Query] (Main.users db) db).
Proof. unfold Main.get_user. run. destruct db as [t cs]; simpl. by destruct (t !! n). Qed.

Lemma update_user_run n data r db :
  Main.users db !! n = Some r →
  Main.update_user n (Some data) db =
    (Main.Raise Main.PydanticValidationError,
     after [Main.Refresh; Main.Commit; Main.Query]
           (<[n := updated data r]> (Main.users db)) db).
Proof.
  intros Hr. unfold Main.update_user. run. destruct db as [t cs]; simpl in *.
  rewrite Hr. simpl. destruct data as [[u|] [a|]], r as [ru ra rg]; simpl;
    by rewrite lookup_insert_eq.
Qed.

Lemma update_user_absent n data db :
  Main.users db !! n = None →
  Main.update_user n data db =
    (Main.Raise (Main.HTTPException 404 "User not found"),
     after [Main.Query] (Main.users db) db).
Proof.
  intros Hr. unfold Main.update_user. run. destruct db as [t cs]; simpl in *.
  by rewrite Hr.
Qed.

Lemma delete_user_run n db :
  Main.delete_user n db =
    match Main.users db !! n with
    | Some r =>
        (Main.Return (Main.DetailContent
           ("User: " +:+ Py.str n +:+ ", Successfully Deleted.")),
         after [Main.Commit; Main.Delete; Main.Query] (delete n (Main.users db)) db)
    | None =>
        (Main.Raise (Main.HTTPException 404 "User not found"),
         after [Main.Query] (Main.users db) db)
    end.
Proof. unfold Main.delete_user. run. destruct db as [t cs]; simpl. by destruct (t !! n). Qed.

Lemma create_user_run data db :
  Main.create_user data db =
    (Main.Return (Main.IdContent (Main.next_rowid (Main.users db))),
     after [Main.Refresh; Main.Commit; Main.Add]
           (<[Main.next_rowid (Main.users db) :=
                {| Main.row_username := Main.UserCreateRequest.username data;
                   Main.row_age := Main.UserCreateRequest.age data;
                   Main.row_gender := Main.UserCreateRequest.gender data |}]>
              (Main.users db)) db).
Proof.
  unfold Main.create_user. run. destruct db as [t cs]; simpl.
  by rewrite lookup_insert_eq.
Qed.

Lemma get_all_users_run db :
  Main.get_all_users db =
    (match Main.scan (Main.users db) with
     | [] => Main.Raise (Main.HTTPException 404 "No users found")
     | _ => Main.Raise Main.PydanticValidationError
     end, after [Main.Query] (Main.users db) db).
Proof.
  unfold Main.get_all_users. run. destruct db as [t cs]; simpl.
  by destruct (Main.scan t).
Qed.

Lemma search_users_run u a g db :
  Field.length_ok 1 50 u = true → 0 < a →
  Main.search_users u a g db =
    (if Main.int64 a
     then match filter (λ x, Main.UserModel.username x = u ∧ Main.UserModel.age x = a
                             ∧ Main.UserModel.gender x = g)
                       (Main.scan (Main.users db)) with
          | [] => Main.Raise (Main.HTTPException 404 "No matching users found")
          | _ => Main.Raise Main.PydanticValidationError
          end
     else Main.Raise Main.OverflowError,
     after [Main.Query] (Main.users db) db).
Proof.
  intros Hu Ha. unfold Main.search_users, Main.UserQueryParams.validate, Field.gt.
  rewrite Hu. destruct (Z.ltb_spec 0 a); [|lia]. simpl. run.
  destruct db as [t cs]; simpl. destruct (Main.int64 a); [|done].
  by destruct (filter _ _).
Qed.

Lemma gender_validate_value g : Gender.validate (Gender.value g) = Some g.
Proof. by destruct g. Qed.

Lemma gender_validate_Some v g : Gender.validate v = Some g ↔ v = Gender.value g.
Proof.
  split; [|intros ->; apply gender_validate_value].
  unfold Gender.validate.
  destruct (String.eqb_spec v "male") as [->|_]; [by intros [= <-]|].
  destruct (String.eqb_spec v "female") as [->|_]; [by intros [= <-]|done].
Qed.

Lemma gender_validate_None v : Gender.validate v = None ↔ v ≠ "male" ∧ v ≠ "female".
Proof.
  unfold Gender.validate.
  destruct (String.eqb_spec v "male") as [->|?]; [split; [done|by intros [? _]]|].
  destruct (String.eqb_spec v "female") as [->|?]; [split; [done|by intros [_ ?]]|done].
Qed.

(** ** Search *)

(** C1. A search request never reaches [search_users]: the route
    [/users/{user_id}] is registered before [/users/search], so the path
    [/users/search] is bound to [get_user] with [user_id = "search"], which
    is not an integer.  Whatever the query and the store, the answer is a
    validation error and not the matching records. *)
Theorem search_route_shadowed (q : QueryString) (b : option JsonBody) (db : Main.Database) :
  route Main.routes GET ["users"; "search"] = Full Main.get_user_endpoint ["search"]
  ∧ Main.app {| method := GET; path := ["users"; "search"]; query := q; body := b |} db
    = (ValidationError, db).
Proof. split; [reflexivity|]. by destruct db. Qed.

(** ** Identifiers *)

(** C2. In the relational store an id is issued a second time once the
    newest record has been deleted: two creates, a delete of id 2 and a
    third create answer with ids 1, 2 and 2 again. *)
Theorem deleted_rowid_reissued :
  (Main.serve [ request POST ["users"] (Some (user_json "kim" 20 "male"));
                request POST ["users"] (Some (user_json "lee" 31 "female"));
                request DELETE ["users"; "2"] None;
                request POST ["users"] (Some (user_json "park" 44 "male")) ]
              Main.empty_database).1
  = [ OK (Main.IdContent 1); OK (Main.IdContent 2);
      OK (Main.DetailContent "User: 2, Successfully Deleted.");
      OK (Main.IdContent 2) ].
Proof. vm_compute. reflexivity. Qed.

(** ** Path validation *)

(** C10. A get, update or delete whose path id is below 1 is answered with
    a validation error; the database, the record of session calls
    included, is exactly what it was. *)
Theorem invalid_id_rejected (m : Method) (s : string) (n : Z)
    (q : QueryString) (b : option JsonBody) (db : Main.Database) :
  m ≠ POST → Py.int s = Some n → n < 1 →
  Main.app {| method := m; path := ["users"; s]; query := q; body := b |} db
  = (ValidationError, db).
Proof.
  intros Hm Hs Hn. unfold Main.app. simpl method; simpl path.
  rewrite route_users_id by by eapply int_nonempty.
  destruct m; [|done|..]; unfold Main.endpoint; run;
    by rewrite (bind_user_id_bad s n db Hs Hn).
Qed.

Lemma invalid_id_rejected_witness :
  Main.app (request DELETE ["users"; "0"] None) Main.empty_database
  = (ValidationError, Main.empty_database).
Proof. apply (invalid_id_rejected DELETE "0" 0); [done|reflexivity|lia]. Defined.

(** ** Listing *)

(** C7. Listing an empty store is a 404, not an empty list.  Listing a
    store that holds a record does not answer with the records: the first
    of them fails in [UserResponse.model_validate] and the answer is a
    server error.  The table is not changed. *)
Theorem list_users_fails_when_nonempty (q : QueryString) (b : option JsonBody)
    (db : Main.Database) :
  let out := Main.app {| method := GET; path := ["users"]; query := q; body := b |} db in
  (Main.users db = ∅ → out.1 = NotFound "No users found")
  ∧ (Main.users db ≠ ∅ → out.1 = InternalServerError)
  ∧ Main.users out.2 = Main.users db.
Proof.
  intros out. subst out. unfold Main.app. simpl method; simpl path.
  change (route Main.routes GET ["users"]) with (Full Main.get_all_users_endpoint []).
  unfold Main.endpoint. rewrite get_all_users_run.
  split; [|split; [|done]].
  - intros ->. done.
  - intros Hne. destruct (Main.scan (Main.users db)) eqn:E; [|done].
    by apply scan_nil in E.
Qed.

(** ** Requests by id, at the application *)

Lemma str_nonempty (n : Z) : Py.str n ≠ "".
Proof. apply (int_nonempty _ n), int_str. Qed.

Lemma app_get (n : Z) q b db :
  1 ≤ n →
  Main.app {| method := GET; path := ["users"; Py.str n]; query := q; body := b |} db
  = (match Main.users db !! n with
     | Some r => InternalServerError
     | None => NotFound "User not found"
     end, after [Main.Query] (Main.users db) db).
Proof.
  intros Hn. unfold Main.app. simpl method; simpl path.
  rewrite route_users_id by apply str_nonempty.
  unfold Main.endpoint. run. rewrite (bind_user_id_ok _ n) by auto using int_str.
  rewrite get_user_run. by destruct (Main.users db !! n).
Qed.

Lemma app_put (n : Z) (r : Main.Row) (j : JsonBody) (data : Main.UserUpdateRequest.t) q db :
  1 ≤ n → Main.users db !! n = Some r → Main.UserUpdateRequest.validate j = Some data →
  Main.app {| method := PUT; path := ["users"; Py.str n]; query := q; body := Some j |} db
  = (InternalServerError,
     after [Main.Refresh; Main.Commit; Main.Query]
           (<[n := updated data r]> (Main.users db)) db).
Proof.
  intros Hn Hr Hj. unfold Main.app. simpl method; simpl path.
  rewrite route_users_id by apply str_nonempty.
  unfold Main.endpoint, Main.bind_update_body. run.
  rewrite (bind_user_id_ok _ n) by auto using int_str.
  cbn [body]. rewrite Hj. by rewrite (update_user_run n data r).
Qed.

Lemma app_delete (n : Z) (r : Main.Row) q b db :
  1 ≤ n → Main.users db !! n = Some r →
  Main.app {| method := DELETE; path := ["users"; Py.str n]; query := q; body := b |} db
  = (OK (Main.DetailContent ("User: " +:+ Py.str n +:+ ", Successfully Deleted.")),
     after [Main.Commit; Main.Delete; Main.Query] (delete n (Main.users db)) db).
Proof.
  intros Hn Hr. unfold Main.app. simpl method; simpl path.
  rewrite route_users_id by apply str_nonempty.
  unfold Main.endpoint. run. rewrite (bind_user_id_ok _ n) by auto using int_str.
  by rewrite delete_user_run, Hr.
Qed.

Lemma app_post (j : JsonBody) (data : Main.UserCreateRequest.t) q db :
  Main.UserCreateRequest.validate j = Some data →
  Main.app {| method := POST; path := ["users"]; query := q; body := Some j |} db
  = (OK (Main.IdContent (Main.next_rowid (Main.users db))),
     after [Main.Refresh; Main.Commit; Main.Add]
           (<[Main.next_rowid (Main.users db) :=
                {| Main.row_username := Main.UserCreateRequest.username data;
                   Main.row_age := Main.UserCreateRequest.age data;
                   Main.row_gender := Main.UserCreateRequest.gender data |}]>
              (Main.users db)) db).
Proof.
  intros Hj. unfold Main.app. simpl method; simpl path.
  change (route Main.routes POST ["users"]) with (Full Main.create_user_endpoint []).
  unfold Main.endpoint, Main.bind_create_body. run. cbn [body mbind option_bind]. rewrite Hj.
  by rewrite create_user_run.
Qed.

Lemma app_post_invalid (j : JsonBody) q db :
  Main.UserCreateRequest.validate j = None →
  Main.app {| method := POST; path := ["users"]; query := q; body := Some j |} db
  = (ValidationError, db).
Proof.
  intros Hj. unfold Main.app. simpl method; simpl path.
  change (route Main.routes POST ["users"]) with (Full Main.create_user_endpoint []).
  unfold Main.endpoint, Main.bind_create_body. run. cbn [body mbind option_bind]. by rewrite Hj.
Qed.

Lemma validate_create (u : string) (a : Z) (g : string) :
  Main.UserCreateRequest.validate (user_json u a g) =
    match Gender.validate g with
    | Some g' =>
        if decide (1 ≤ Py.len u ≤ 50 ∧ 0 ≤ a ≤ 120)
        then Some {| Main.UserCreateRequest.username := u;
                     Main.UserCreateRequest.age := a;
                     Main.UserCreateRequest.gender := g' |}
        else None
    | None => None
    end.
Proof.
  unfold Main.UserCreateRequest.validate, Field.length_ok, Field.ge_le. simpl.
  destruct (Gender.validate g); [|done].
  destruct (Z.leb_spec 1 (Py.len u)), (Z.leb_spec (Py.len u) 50),
    (Z.leb_spec 0 a), (Z.leb_spec a 120); simpl; case_decide; (done || lia).
Qed.

Lemma positive_id (db : Main.Database) (n : Z) (r : Main.Row) :
  Main.positive_ids db → Main.users db !! n = Some r → 1 ≤ n.
Proof. intros Hpos Hr. apply (Hpos n r Hr). Qed.

(** ** Create, then get *)

(** C4. Creating a user from a valid input answers with a new id and
    stores the three input fields under it; fetching that id does not answer
    with the record: [get_user] finds the row and then fails in
    [UserResponse.model_validate], and the answer is a server error. *)
Theorem create_then_get_fails (u : string) (a : Z) (g : GenderEnum) (db : Main.Database) :
  Main.positive_ids db → 1 ≤ Py.len u ≤ 50 → 0 ≤ a ≤ 120 →
  ∃ i db',
    Main.app (request POST ["users"] (Some (user_json u a (Gender.value g)))) db
      = (OK (Main.IdContent i), db')
    ∧ Main.users db' !! i
      = Some {| Main.row_username := u; Main.row_age := a; Main.row_gender := g |}
    ∧ (Main.app (request GET ["users"; Py.str i] None) db').1 = InternalServerError.
Proof.
  intros Hpos Hu Ha. eexists _, _. split; [|split].
  - unfold request. apply app_post. rewrite validate_create, gender_validate_value.
    by rewrite decide_True.
  - simpl. by rewrite lookup_insert_eq.
  - unfold request. rewrite app_get by by apply next_rowid_positive.
    simpl. by rewrite lookup_insert_eq.
Qed.

Lemma create_then_get_fails_witness :
  ∃ i db',
    Main.app (request POST ["users"] (Some (user_json "kim" 20 (Gender.value male))))
             Main.empty_database = (OK (Main.IdContent i), db')
    ∧ Main.users db' !! i
      = Some {| Main.row_username := "kim"; Main.row_age := 20; Main.row_gender := male |}
    ∧ (Main.app (request GET ["users"; Py.str i] None) db').1 = InternalServerError.
Proof.
  apply (create_then_get_fails "kim" 20 male Main.empty_database).
  - apply map_Forall_empty.
  - vm_compute. split; discriminate.
  - lia.
Defined.

(** ** Update *)

Lemma bind_user_id_cases (params : list string) (db : Main.Database) :
  (∃ n, 1 ≤ n ∧ Main.bind_user_id params db = (Main.Return n, db))
  ∨ Main.bind_user_id params db = (Main.Raise Main.RequestValidationError, db).
Proof.
  unfold Main.bind_user_id, Field.ge. destruct params as [|s [|? ?]]; [by right| |by right].
  destruct (Py.int s) as [n|]; [|by right].
  destruct (Z.leb_spec 1 n); [left; by exists n|by right].
Qed.

(** What the update endpoint can do to the table: nothing, or rewrite the
    row of one stored id with the fields of the request. *)
Lemma update_endpoint_table (params : list string) (req : Request) (db : Main.Database) :
  let db' := (Main.endpoint Main.update_user_endpoint params req db).2 in
  Main.users db' = Main.users db
  ∨ ∃ n r data, 1 ≤ n ∧ Main.users db !! n = Some r
                ∧ Main.users db' = <[n := updated data r]> (Main.users db).
Proof.
  unfold Main.endpoint. run.
  destruct (bind_user_id_cases params db) as [(n & Hn & ->)| ->]; [|by left].
  unfold Main.bind_update_body.
  destruct (Main.users db !! n) as [r|] eqn:Hr.
  - destruct (body req) as [j|].
    + destruct (Main.UserUpdateRequest.validate j) as [data|]; [|by left].
      run. rewrite (update_user_run n data r) by done. right. by exists n, r, data.
    + left. run. unfold Main.update_user. run. destruct db as [t cs]; simpl in *.
      by rewrite Hr.
  - destruct (body req) as [j|].
    + destruct (Main.UserUpdateRequest.validate j) as [data|]; [|by left].
      run. rewrite update_user_absent by done. by left.
    + run. rewrite update_user_absent by done. by left.
Qed.

Lemma app_put_invalid (n : Z) (j : JsonBody) q db :
  1 ≤ n → Main.UserUpdateRequest.validate j = None →
  Main.app {| method := PUT; path := ["users"; Py.str n]; query := q; body := Some j |} db
  = (ValidationError, db).
Proof.
  intros Hn Hj. unfold Main.app. cbn [method path].
  rewrite route_users_id by apply str_nonempty.
  unfold Main.endpoint, Main.bind_update_body. run.
  rewrite (bind_user_id_ok _ n) by auto using int_str.
  cbn [body]. by rewrite Hj.
Qed.

Lemma validate_update (u : option string) (a : option Z) (g : option string) :
  Main.UserUpdateRequest.validate {| j_username := u; j_age := a; j_gender := g |} =
    if decide (username_ok u ∧ age_ok a)
    then Some {| Main.UserUpdateRequest.username := u; Main.UserUpdateRequest.age := a |}
    else None.
Proof.
  case_decide as H; unfold username_ok, age_ok in H;
    unfold Main.UserUpdateRequest.validate, Field.length_ok, Field.ge_le;
    destruct u as [u|], a as [a|]; simpl;
    repeat match goal with |- context [Z.leb ?x ?y] => destruct (Z.leb_spec x y) end;
    simpl; (done || intuition lia).
Qed.

(** C3. An update of an existing user in which neither [username] nor
    [age] is given leaves the table as it was, but it does not succeed:
    after the commit the handler fails in [UserResponse.model_validate] and
    the answer is a server error, not the record. *)
Theorem empty_update_fails (n : Z) (r : Main.Row) (g : option string) (db : Main.Database) :
  Main.positive_ids db → Main.users db !! n = Some r →
  let out := Main.app (request PUT ["users"; Py.str n]
                         (Some {| j_username := None; j_age := None; j_gender := g |})) db in
  out.1 = InternalServerError
  ∧ Main.users out.2 = Main.users db.
Proof.
  intros Hpos Hr out. subst out. unfold request.
  rewrite (app_put n r _ {| Main.UserUpdateRequest.username := None;
                            Main.UserUpdateRequest.age := None |});
    [|by eapply positive_id|done|done].
  assert (updated {| Main.UserUpdateRequest.username := None;
                     Main.UserUpdateRequest.age := None |} r = r) as -> by by destruct r.
  split; [done|]. simpl. by apply insert_id.
Qed.

Lemma positive_ids_kim_only : Main.positive_ids kim_only.
Proof. apply map_Forall_singleton. simpl. lia. Qed.

Lemma empty_update_fails_witness :
  let out := Main.app (request PUT ["users"; Py.str 1]
                         (Some {| j_username := None; j_age := None; j_gender := None |}))
                      kim_only in
  out.1 = InternalServerError
  ∧ Main.users out.2 = Main.users kim_only.
Proof.
  apply (empty_update_fails 1 kim_row None kim_only).
  - apply positive_ids_kim_only.
  - reflexivity.
Defined.

(** C6. On an existing user, an update that gives only [age] stores that
    age and keeps the stored [username] and [gender], and one that gives
    only [username] stores it and keeps [age] and [gender].  Whatever the
    update endpoint is given, it leaves the set of stored ids and the
    [gender] stored under every id as they were. *)
Theorem update_frame (n : Z) (r : Main.Row) (db : Main.Database) :
  Main.positive_ids db → Main.users db !! n = Some r →
  (∀ a, 0 ≤ a ≤ 120 →
     let out := Main.app (request PUT ["users"; Py.str n]
                            (Some (update_json None (Some a)))) db in
     Main.users out.2 !! n
     = Some {| Main.row_username := Main.row_username r; Main.row_age := a;
               Main.row_gender := Main.row_gender r |})
  ∧ (∀ u, 1 ≤ Py.len u ≤ 50 →
     let out := Main.app (request PUT ["users"; Py.str n]
                            (Some (update_json (Some u) None))) db in
     Main.users out.2 !! n
     = Some {| Main.row_username := u; Main.row_age := Main.row_age r;
               Main.row_gender := Main.row_gender r |})
  ∧ (∀ params req,
     let db' := (Main.endpoint Main.update_user_endpoint params req db).2 in
     dom (Main.users db') = dom (Main.users db)
     ∧ ∀ i, Main.row_gender <$> Main.users db' !! i
            = Main.row_gender <$> Main.users db !! i).
Proof.
  intros Hpos Hr. pose proof (positive_id db n r Hpos Hr) as Hn.
  split; [|split].
  - intros a Ha out. subst out. unfold request, update_json.
    rewrite (app_put n r _ {| Main.UserUpdateRequest.username := None;
                              Main.UserUpdateRequest.age := Some a |}); [|done..|].
    + simpl. by rewrite lookup_insert_eq.
    + rewrite validate_update. by rewrite decide_True.
  - intros u Hu out. subst out. unfold request, update_json.
    rewrite (app_put n r _ {| Main.UserUpdateRequest.username := Some u;
                              Main.UserUpdateRequest.age := None |}); [|done..|].
    + simpl. by rewrite lookup_insert_eq.
    + rewrite validate_update. by rewrite decide_True.
  - intros params req db'. subst db'.
    destruct (update_endpoint_table params req db) as [->|(k & rk & data & _ & Hk & ->)];
      [done|]. split.
    + by apply dom_insert_lookup_L.
    + intros i. destruct (decide (k = i)) as [<-|Hne].
      * by rewrite lookup_insert_eq, Hk.
      * by rewrite lookup_insert_ne.
Qed.

Lemma update_frame_witness :
  (let out := Main.app (request PUT ["users"; Py.str 1]
                          (Some (update_json None (Some 21)))) kim_only in
   Main.users out.2 !! 1
   = Some {| Main.row_username := "kim"; Main.row_age := 21; Main.row_gender := male |})
  ∧ (let out := Main.app (request PUT ["users"; Py.str 1]
                            (Some (update_json (Some "kang") None))) kim_only in
     Main.users out.2 !! 1
     = Some {| Main.row_username := "kang"; Main.row_age := 20; Main.row_gender := male |}).
Proof.
  destruct (update_frame 1 kim_row kim_only positive_ids_kim_only eq_refl)
    as (Hage & Hname & _).
  split.
  - apply (Hage 21). lia.
  - apply (Hname "kang"). vm_compute. split; discriminate.
Defined.

(** ** Delete, then get *)

(** C5. Deleting a stored user succeeds, and fetching the same id
    afterwards is a 404. *)
Theorem delete_then_get (n : Z) (r : Main.Row) (db : Main.Database) :
  Main.positive_ids db → Main.users db !! n = Some r →
  let out := Main.app (request DELETE ["users"; Py.str n] None) db in
  out.1 = OK (Main.DetailContent ("User: " +:+ Py.str n +:+ ", Successfully Deleted."))
  ∧ (Main.app (request GET ["users"; Py.str n] None) out.2).1
    = NotFound "User not found".
Proof.
  intros Hpos Hr out. subst out. pose proof (positive_id db n r Hpos Hr) as Hn.
  unfold request. rewrite (app_delete n r) by done. split; [done|].
  rewrite app_get by done. simpl. by rewrite lookup_delete_eq.
Qed.

Lemma delete_then_get_witness :
  let out := Main.app (request DELETE ["users"; Py.str 1] None) kim_only in
  out.1 = OK (Main.DetailContent ("User: " +:+ Py.str 1 +:+ ", Successfully Deleted."))
  ∧ (Main.app (request GET ["users"; Py.str 1] None) out.2).1
    = NotFound "User not found".
Proof.
  apply (delete_then_get 1 kim_row kim_only).
  - apply positive_ids_kim_only.
  - reflexivity.
Defined.

Lemma list_users_fails_when_nonempty_witness :
  (Main.app (request GET ["users"] None) Main.empty_database).1
    = NotFound "No users found"
  ∧ (Main.app (request GET ["users"] None) kim_only).1 = InternalServerError.
Proof.
  split.
  - apply (list_users_fails_when_nonempty no_query None Main.empty_database). reflexivity.
  - apply (list_users_fails_when_nonempty no_query None kim_only).
    intros H. apply (f_equal (λ t, t !! 1)) in H. discriminate H.
Defined.

(** ** Validation *)

Lemma validate_create_valid (u : string) (a : Z) (g : string) :
  is_Some (Main.UserCreateRequest.validate (user_json u a g)) ↔ valid_user u a g.
Proof.
  rewrite validate_create. unfold valid_user.
  destruct (Gender.validate g) as [g'|] eqn:E.
  - apply gender_validate_Some in E as ->. case_decide as H.
    + split; [|by eexists]. intros _. destruct g'; simpl; intuition.
    + split; [by intros [? [=]]|]. intuition.
  - apply gender_validate_None in E as [? ?]. split; [by intros [? [=]]|]. intuition.
Qed.

Lemma users_validate_eq (j : JsonBody) :
  Users.UserCreate.validate j =
    (λ d, {| Users.UserCreate.username := Main.UserCreateRequest.username d;
             Users.UserCreate.age := Main.UserCreateRequest.age d;
             Users.UserCreate.gender := Main.UserCreateRequest.gender d |})
    <$> Main.UserCreateRequest.validate j.
Proof.
  unfold Users.UserCreate.validate, Main.UserCreateRequest.validate.
  destruct (j_username j), (j_age j), (j_gender j) as [g|]; try done.
  destruct (Gender.validate g); [|done]. by destruct (_ && _).
Qed.

(** What the create request of either variant answers, by the validity of
    its three fields. *)
Lemma main_create_response (u : string) (a : Z) (g : string) (db : Main.Database) :
  (Main.app (request POST ["users"] (Some (user_json u a g))) db).1 =
    if decide (valid_user u a g)
    then OK (Main.IdContent (Main.next_rowid (Main.users db)))
    else ValidationError.
Proof.
  unfold request. case_decide as H; rewrite <- validate_create_valid in H.
  - destruct H as [d Hd]. by rewrite (app_post _ d).
  - rewrite app_post_invalid; [done|]. by apply eq_None_not_Some.
Qed.

Lemma users_create_response (u : string) (a : Z) (g : string) (st : Users.State) :
  (Users.app (request POST ["users"] (Some (user_json u a g))) st).1 =
    if decide (valid_user u a g)
    then OK (Users.user_id_counter st)
    else ValidationError.
Proof.
  unfold Users.app, request. cbn [method path body].
  change (route Users.routes POST ["users"]) with (Full Users.create_user_endpoint []).
  cbn [mbind option_bind]. rewrite users_validate_eq.
  case_decide as H; rewrite <- validate_create_valid in H.
  - destruct H as [d ->]. done.
  - apply eq_None_not_Some in H as ->. done.
Qed.

(** C9. The boundaries of create-input validation, in both variants:
    ages 0 and 120 are accepted, 121 and -1 are rejected; a username of 50
    characters is accepted, one of 51 is rejected; a gender that is neither
    [male] nor [female] is rejected. *)
Theorem create_validation_boundaries (db : Main.Database) (st : Users.State) :
  let main u a g := (Main.app (request POST ["users"] (Some (user_json u a g))) db).1 in
  let users u a g := (Users.app (request POST ["users"] (Some (user_json u a g))) st).1 in
  let accepted u a g :=
    (∃ i, main u a g = OK (Main.IdContent i)) ∧ (∃ i, users u a g = OK i) in
  let rejected u a g :=
    main u a g = ValidationError ∧ users u a g = ValidationError in
  (∀ u g, 1 ≤ Py.len u ≤ 50 → g = "male" ∨ g = "female" →
     accepted u 0 g ∧ accepted u 120 g ∧ rejected u 121 g ∧ rejected u (-1) g)
  ∧ (∀ u a g, 0 ≤ a ≤ 120 → g = "male" ∨ g = "female" →
     (Py.len u = 50 → accepted u a g) ∧ (Py.len u = 51 → rejected u a g))
  ∧ (∀ u a g, g ≠ "male" → g ≠ "female" → rejected u a g).
Proof.
  intros main users accepted rejected.
  assert (Hacc : ∀ u a g, valid_user u a g → accepted u a g).
  { intros u a g H. subst accepted main users. cbv beta.
    rewrite main_create_response, users_create_response, !decide_True by done.
    split; by eexists. }
  assert (Hrej : ∀ u a g, ¬ valid_user u a g → rejected u a g).
  { intros u a g H. subst rejected main users. cbv beta.
    by rewrite main_create_response, users_create_response, !decide_False by done. }
  unfold valid_user in *. split; [|split].
  - intros u g Hu Hg.
    split; [apply Hacc; repeat split; (lia || done)|].
    split; [apply Hacc; repeat split; (lia || done)|].
    split; apply Hrej; intros (? & ? & ?); lia.
  - intros u a g Ha Hg. split; intros Hu.
    + apply Hacc; repeat split; (lia || done).
    + apply Hrej; intros (? & ? & ?); lia.
  - intros u a g Hm Hf. apply Hrej. tauto.
Qed.

Lemma create_validation_boundaries_witness :
  let db := Main.empty_database in
  let st := Users.initial in
  let main u a g := (Main.app (request POST ["users"] (Some (user_json u a g))) db).1 in
  let users u a g := (Users.app (request POST ["users"] (Some (user_json u a g))) st).1 in
  let accepted u a g :=
    (∃ i, main u a g = OK (Main.IdContent i)) ∧ (∃ i, users u a g = OK i) in
  let rejected u a g :=
    main u a g = ValidationError ∧ users u a g = ValidationError in
  (accepted "kim" 0 "male" ∧ accepted "kim" 120 "male"
   ∧ rejected "kim" 121 "male" ∧ rejected "kim" (-1) "male")
  ∧ accepted fifty 20 "female"
  ∧ rejected (fifty +:+ "x") 20 "female"
  ∧ rejected "kim" 20 "other".
Proof.
  intros db st main users accepted rejected.
  destruct (create_validation_boundaries db st) as (Hage & Hname & Hgender).
  split; [|split; [|split]].
  - apply (Hage "kim" "male"); [vm_compute; split; discriminate|by left].
  - apply (Hname fifty 20 "female"); [lia|by right|reflexivity].
  - apply (Hname (fifty +:+ "x") 20 "female"); [lia|by right|reflexivity].
  - apply (Hgender "kim" 20 "other"); discriminate.
Defined.

Lemma search_endpoint_invalid_age (u : string) (a : Z) (g : string) p m b db :
  a ≤ 0 →
  Main.endpoint Main.search_users_endpoint []
    {| method := m; path := p; query := search_query u a g; body := b |} db
  = (Main.Raise Main.RequestValidationError, db).
Proof.
  intros Ha. unfold Main.endpoint, Main.bind_search_query, Field.gt. run.
  cbn [query search_query q_username q_age q_gender mbind option_bind].
  destruct (Gender.validate g); [|done].
  destruct (Z.ltb_spec 0 a); [lia|]. by rewrite andb_false_r.
Qed.

Lemma search_endpoint_valid_age (u : string) (a : Z) (g : GenderEnum) p m b db :
  1 ≤ Py.len u ≤ 50 → 0 < a →
  Main.endpoint Main.search_users_endpoint []
    {| method := m; path := p; query := search_query u a (Gender.value g); body := b |} db
  = Main.search_users u a g db.
Proof.
  intros Hu Ha. unfold Main.endpoint, Main.bind_search_query.
  cbn [query search_query q_username q_age q_gender mbind option_bind].
  rewrite gender_validate_value. unfold Field.length_ok, Field.gt.
  destruct (Z.leb_spec 1 (Py.len u)); [|lia].
  destruct (Z.leb_spec (Py.len u) 50); [|lia].
  destruct (Z.ltb_spec 0 a); [|lia]. simpl. run.
  by destruct (Main.search_users u a g db) as [[] ?].
Qed.

Lemma search_users_not_rejected (u : string) (a : Z) (g : GenderEnum) db :
  1 ≤ Py.len u ≤ 50 → 0 < a →
  Main.respond (Main.search_users u a g db).1 ≠ ValidationError.
Proof.
  intros Hu Ha. rewrite search_users_run; [|unfold Field.length_ok|done].
  - simpl. destruct (Main.int64 a); [|done]. by destruct (filter _ _).
  - apply andb_true_iff. split; apply Z.leb_le; lia.
Qed.

(** C8. Age validation differs between the operations.  Create and update
    answer with a validation error exactly when the age is outside
    0..120, and take every age inside: create answers with the new id,
    update writes the age to the stored row.  The search endpoint answers
    with a validation error exactly when the age is not above 0, and then
    without reaching the store. *)
Theorem age_validation_asymmetric (u : string) (uo : option string) (g : GenderEnum)
    (a : Z) (db : Main.Database) :
  1 ≤ Py.len u ≤ 50 → username_ok uo →
  let create := (Main.app (request POST ["users"]
                             (Some (user_json u a (Gender.value g)))) db).1 in
  let update n := Main.app (request PUT ["users"; Py.str n]
                              (Some (update_json uo (Some a)))) db in
  let search := Main.endpoint Main.search_users_endpoint []
                  {| method := GET; path := ["users"; "search"];
                     query := search_query u a (Gender.value g); body := None |} db in
  ((create = ValidationError ↔ ¬ 0 ≤ a ≤ 120)
   ∧ (0 ≤ a ≤ 120 → ∃ i, create = OK (Main.IdContent i)))
  ∧ (∀ n r, Main.positive_ids db → Main.users db !! n = Some r →
       ((update n).1 = ValidationError ↔ ¬ 0 ≤ a ≤ 120)
       ∧ (0 ≤ a ≤ 120 → Main.row_age <$> Main.users (update n).2 !! n = Some a))
  ∧ ((Main.respond search.1 = ValidationError ↔ ¬ 0 < a)
     ∧ (¬ 0 < a → search.2 = db)).
Proof.
  intros Hu Huo create update search. split; [|split].
  - subst create. rewrite main_create_response.
    assert (valid_user u a (Gender.value g) ↔ 0 ≤ a ≤ 120) as Hv.
    { unfold valid_user. destruct g; simpl; intuition. }
    case_decide as H; rewrite Hv in H; split; try done; by eexists.
  - intros n r Hpos Hr. pose proof (positive_id db n r Hpos Hr) as Hn.
    subst update. cbv beta. unfold request, update_json.
    destruct (decide (0 ≤ a ≤ 120)) as [Ha|Ha].
    + rewrite (app_put n r _ {| Main.UserUpdateRequest.username := uo;
                                Main.UserUpdateRequest.age := Some a |}); [|done..|].
      * split; [done|]. intros _. simpl. by rewrite lookup_insert_eq.
      * rewrite validate_update. by rewrite decide_True.
    + rewrite app_put_invalid; [done|done|].
      rewrite validate_update. rewrite decide_False; [done|]. by intros [_ ?].
  - subst search. destruct (decide (0 < a)) as [Ha|Ha].
    + rewrite search_endpoint_valid_age by done. split; [|done].
      split; [|done]. intros E. by apply search_users_not_rejected in E.
    + rewrite search_endpoint_invalid_age by lia. done.
Qed.

Lemma age_validation_asymmetric_witness :
  (∃ i, (Main.app (request POST ["users"] (Some (user_json "kim" 0 "male")))
                  kim_only).1 = OK (Main.IdContent i))
  ∧ Main.row_age <$>
      Main.users (Main.app (request PUT ["users"; Py.str 1]
                              (Some (update_json None (Some 0)))) kim_only).2 !! 1
    = Some 0
  ∧ Main.respond
      (Main.endpoint Main.search_users_endpoint []
         {| method := GET; path := ["users"; "search"];
            query := search_query "kim" 0 "male"; body := None |} kim_only).1
    = ValidationError.
Proof.
  assert (Hu : 1 ≤ Py.len "kim" ≤ 50) by (vm_compute; split; discriminate).
  destruct (age_validation_asymmetric "kim" None male 0 kim_only Hu I)
    as ((_ & Hcreate) & Hupdate & (Hsearch & _)).
  split; [apply Hcreate; lia|]. split.
  - apply (Hupdate 1 kim_row positive_ids_kim_only eq_refl). lia.
  - apply Hsearch. lia.
Defined.

(** ** The in-memory store issues increasing ids *)

Lemma users_app_cases (req : Request) (st : Users.State) :
  (∃ st', Users.app req st = (OK (Users.user_id_counter st), st')
          ∧ Users.user_id_counter st' = Users.user_id_counter st + 1)
  ∨ (∃ r, Users.app req st = (r, st) ∧ issued [r] = []).
Proof.
  unfold Users.app. destruct (route _ _ _) as [[] ?| |].
  - destruct (body req ≫= Users.UserCreate.validate) as [user|].
    + left. by eexists.
    + right. by eexists.
  - right. by eexists.
  - right. by eexists.
Qed.

Lemma users_serve_ids (reqs : list Request) (st : Users.State) :
  let out := Users.serve reqs st in
  Users.user_id_counter st ≤ Users.user_id_counter out.2
  ∧ Forall (λ i, Users.user_id_counter st ≤ i < Users.user_id_counter out.2)
           (issued out.1)
  ∧ StronglySorted Z.lt (issued out.1).
Proof.
  revert st. induction reqs as [|req reqs IH]; intros st; simpl.
  { split; [lia|]. split; constructor. }
  destruct (users_app_cases req st) as [(st' & -> & Hc)|(r & -> & Hr)].
  - specialize (IH st'). destruct (Users.serve reqs st') as [rs st'']. simpl in *.
    destruct IH as (Hle & Hall & Hsorted). split; [lia|]. split.
    + constructor; [lia|]. eapply Forall_impl; [exact Hall|]. simpl. lia.
    + constructor; [done|]. eapply Forall_impl; [exact Hall|]. simpl. lia.
  - specialize (IH st). destruct (Users.serve reqs st) as [rs st''].
    by destruct r; [discriminate Hr|..].
Qed.

(** Whatever is requested of the in-memory variant, starting from the
    fresh module state, the ids it returns are positive and each is above
    all the ids returned before it. *)
Lemma users_ids_strictly_increase (reqs : list Request) :
  let ids := issued (Users.serve reqs Users.initial).1 in
  Forall (λ i, 1 ≤ i) ids ∧ StronglySorted Z.lt ids.
Proof.
  destruct (users_serve_ids reqs Users.initial) as (_ & Hall & Hsorted).
  split; [|done]. eapply Forall_impl; [exact Hall|]. simpl. lia.
Qed.

(** In the relational variant a new id is positive and above every id
    that is stored at that moment. *)
Lemma created_id_above_stored (t : gmap Z Main.Row) (i : Z) :
  is_Some (t !! i) → i < Main.next_rowid t.
Proof.
  intros Hi. apply keys_lookup in Hi. unfold Main.next_rowid, Main.largest_rowid.
  destruct (Main.largest _) as [m|] eqn:E.
  - apply largest_Some in E as [_ Hle]. specialize (Hle i Hi). lia.
  - apply largest_None in E. rewrite E in Hi. by apply elem_of_nil in Hi.
Qed.

(** ** Stored ids stay positive *)

Lemma search_users_table u a g db :
  Main.users (Main.search_users u a g db).2 = Main.users db.
Proof.
  unfold Main.search_users.
  destruct (Main.UserQueryParams.validate u a g) as [params|]; [|done].
  run. destruct db as [t cs]; simpl. destruct (Main.int64 _); [|done].
  by destruct (filter _ _).
Qed.

Lemma endpoint_positive_ids (e : Main.Endpoint) params req db :
  Main.positive_ids db → Main.positive_ids (Main.endpoint e params req db).2.
Proof.
  intros Hpos. unfold Main.positive_ids in *. destruct e.
  - unfold Main.endpoint, Main.bind_create_body.
    destruct (body req ≫= Main.UserCreateRequest.validate) as [d|]; run; [|done].
    rewrite create_user_run. simpl.
    apply map_Forall_insert_2; [|done]. by apply next_rowid_positive.
  - unfold Main.endpoint. by rewrite get_all_users_run.
  - unfold Main.endpoint. run.
    destruct (bind_user_id_cases params db) as [(n & Hn & ->)| ->]; [|done].
    by rewrite get_user_run.
  - destruct (update_endpoint_table params req db) as [->|(n & r & d & Hn & _ & ->)];
      [done|]. by apply map_Forall_insert_2.
  - unfold Main.endpoint. run.
    destruct (bind_user_id_cases params db) as [(n & Hn & ->)| ->]; [|done].
    rewrite delete_user_run. destruct (Main.users db !! n); [|done].
    simpl. by apply map_Forall_delete.
  - unfold Main.endpoint, Main.bind_search_query.
    destruct (q_username (query req)), (q_age (query req)),
      (q_gender (query req) ≫= Gender.validate); run; try done.
    destruct (_ && _); [|done]. run. by rewrite search_users_table.
Qed.

Lemma app_positive_ids (req : Request) (db : Main.Database) :
  Main.positive_ids db → Main.positive_ids (Main.app req db).2.
Proof.
  intros Hpos. unfold Main.app. destruct (route _ _ _) as [e params| |]; [|done..].
  pose proof (endpoint_positive_ids e params req db Hpos) as H.
  by destruct (Main.endpoint e params req db).
Qed.

Lemma serve_positive_ids (reqs : list Request) (db : Main.Database) :
  Main.positive_ids db → Main.positive_ids (Main.serve reqs db).2.
Proof.
  revert db. induction reqs as [|req reqs IH]; intros db Hpos; [done|]. simpl.
  pose proof (app_positive_ids req db Hpos) as H.
  destruct (Main.app req db) as [r db']. specialize (IH db' H).
  by destruct (Main.serve reqs db').
Qed.

(** Every database the application reaches from the empty one has
    positive ids only. *)
Lemma reachable_positive_ids (reqs : list Request) :
  Main.positive_ids (Main.serve reqs Main.empty_database).2.
Proof. apply serve_positive_ids, map_Forall_empty. Qed.

(** An update request that carries no body at all is bound to
    [data = None]; on a stored id the handler then fails on
    [data.username]. *)
Lemma update_without_body (n : Z) (r : Main.Row) (db : Main.Database) :
  1 ≤ n → Main.users db !! n = Some r →
  (Main.app (request PUT ["users"; Py.str n] None) db).1 = InternalServerError.
Proof.
  intros Hn Hr. unfold Main.app, request. cbn [method path].
  rewrite route_users_id by apply str_nonempty.
  unfold Main.endpoint, Main.bind_update_body. run.
  rewrite (bind_user_id_ok _ n) by auto using int_str.
  cbn [body]. run. unfold Main.update_user. run.
  destruct db as [t cs]; simpl in *. by rewrite Hr.
Qed.

(** * Further properties of the handlers *)

(** ** Routing picks a registered route *)

Lemma route_full {E} (rs : list (Method * list Segment * E)) m p e ps :
  route rs m p = Full e ps →
  ∃ pat, (m, pat, e) ∈ rs ∧ match_path pat p = Some ps.
Proof.
  induction rs as [|[[m' pat] e'] rs IH]; [done|]. simpl.
  destruct (match_path pat p) as [ps'|] eqn:Hp.
  - case_decide as Hm.
    + intros [= <- <-]. subst m'. exists pat. split; [apply elem_of_cons; by left|done].
    + destruct (route rs m p) as [e'' ps''| |] eqn:Hr; [|done..].
      intros [= <- <-]. destruct (IH eq_refl) as (pat' & Hin & Hpat).
      exists pat'. split; [apply elem_of_cons; by right|done].
  - intros Hr. destruct (IH Hr) as (pat' & Hin & Hpat).
    exists pat'. split; [apply elem_of_cons; by right|done].
Qed.

Lemma routes_method m pat e : (m, pat, e) ∈ Main.routes → m = method_of e.
Proof.
  unfold Main.routes. rewrite !elem_of_cons, elem_of_nil.
  intros [H|[H|[H|[H|[H|[H|[]]]]]]]; by injection H as -> _ ->.
Qed.

Lemma app_route req db e ps :
  route Main.routes (method req) (path req) = Full e ps →
  method req = method_of e
  ∧ Main.app req db
    = (Main.respond (Main.endpoint e ps req db).1, (Main.endpoint e ps req db).2).
Proof.
  intros Hr. split.
  - apply route_full in Hr as (pat & Hin & _). by eapply routes_method.
  - unfold Main.app. rewrite Hr. by destruct (Main.endpoint e ps req db).
Qed.

(** ** Every run of an endpoint is one step *)

Lemma search_users_quiet u a g req db :
  Field.length_ok 1 50 u = true → Field.gt 0 a = true →
  quiet Main.search_users_endpoint req (Main.search_users u a g db).1
  ∧ Main.users (Main.search_users u a g db).2 = Main.users db.
Proof.
  intros Hu Ha. unfold Main.search_users, Main.UserQueryParams.validate.
  rewrite Hu, Ha. simpl. run. destruct db as [t cs]; simpl.
  destruct (Main.int64 a); [|by simpl].
  destruct (filter _ _); simpl; auto.
Qed.

Lemma endpoint_step (e : Main.Endpoint) ps req db :
  Step db req e (Main.endpoint e ps req db).1 (Main.users (Main.endpoint e ps req db).2).
Proof.
  destruct e.
  - unfold Main.endpoint, Main.bind_create_body.
    destruct (body req ≫= Main.UserCreateRequest.validate) as [d|] eqn:Hd; run.
    + rewrite create_user_run. cbn [fst snd after Main.users]. by apply step_create.
    + by apply step_quiet.
  - unfold Main.endpoint. rewrite get_all_users_run. cbn [fst snd after Main.users].
    apply step_quiet. destruct (Main.scan _); simpl; auto.
  - unfold Main.endpoint. run.
    destruct (bind_user_id_cases ps db) as [(n & Hn & ->)| ->];
      [|by apply step_quiet].
    rewrite get_user_run. cbn [fst snd after Main.users].
    apply step_quiet. destruct (Main.users db !! n); simpl; auto.
  - unfold Main.endpoint. run.
    destruct (bind_user_id_cases ps db) as [(n & Hn & ->)| ->];
      [|by apply step_quiet].
    unfold Main.bind_update_body.
    destruct (Main.users db !! n) as [r|] eqn:Hr.
    + destruct (body req) as [j|] eqn:Hb.
      * destruct (Main.UserUpdateRequest.validate j) as [data|] eqn:Hj;
          [|by apply step_quiet].
        run. rewrite (update_user_run n data r) by done.
        cbn [fst snd after Main.users]. by eapply step_update.
      * run. unfold Main.update_user. run. destruct db as [t cs]; simpl in *.
        rewrite Hr. by apply (step_quiet {| Main.users := t; Main.calls := cs |}).
    + destruct (body req) as [j|].
      * destruct (Main.UserUpdateRequest.validate j) as [data|];
          [|by apply step_quiet].
        run. rewrite update_user_absent by done. cbn [fst snd after Main.users].
        by apply step_quiet.
      * run. rewrite update_user_absent by done. cbn [fst snd after Main.users].
        by apply step_quiet.
  - unfold Main.endpoint. run.
    destruct (bind_user_id_cases ps db) as [(n & Hn & ->)| ->];
      [|by apply step_quiet].
    rewrite delete_user_run. destruct (Main.users db !! n) as [r|] eqn:Hr;
      cbn [fst snd after Main.users].
    + by eapply step_delete.
    + by apply step_quiet.
  - unfold Main.endpoint, Main.bind_search_query.
    destruct (q_username (query req)) as [u|], (q_age (query req)) as [a|],
      (q_gender (query req) ≫= Gender.validate) as [g|]; run;
      try by apply step_quiet.
    destruct (Field.length_ok 1 50 u && Field.gt 0 a) eqn:Hv;
      [|by apply step_quiet].
    apply andb_true_iff in Hv as [Hu Ha]. run.
    destruct (search_users_quiet u a g req db Hu Ha) as [Hq Ht].
    destruct (Main.search_users u a g db) as [res db'] eqn:E. cbn [fst snd] in *.
    rewrite Ht. by apply step_quiet.
Qed.

Lemma app_cases (req : Request) (db : Main.Database) :
  Main.app req db = (MethodNotAllowed, db)
  ∨ Main.app req db = (NoRoute, db)
  ∨ ∃ e ps, method req = method_of e
            ∧ Main.app req db
              = (Main.respond (Main.endpoint e ps req db).1,
                 (Main.endpoint e ps req db).2)
            ∧ Step db req e (Main.endpoint e ps req db).1
                   (Main.users (Main.endpoint e ps req db).2).
Proof.
  destruct (route Main.routes (method req) (path req)) as [e ps| |] eqn:Hr.
  - right; right. exists e, ps. destruct (app_route req db e ps Hr) as [Hm Happ].
    split; [done|]. split; [done|]. apply endpoint_step.
  - left. unfold Main.app. by rewrite Hr.
  - right; left. unfold Main.app. by rewrite Hr.
Qed.

(** ** Reads do not write *)

Lemma step_get db req e res t :
  Step db req e res t → method_of e = GET → t = Main.users db.
Proof. by intros [e' res' Hq|data Hd|n r j data Hn Hr Hb Hj|n r Hn Hr]. Qed.

(** X1. A GET request, whatever its path, query and body, leaves the
    table as it is. *)
Theorem get_requests_read_only (req : Request) (db : Main.Database) :
  method req = GET → Main.users (Main.app req db).2 = Main.users db.
Proof.
  intros Hm. destruct (app_cases req db) as [-> | [-> | (e & ps & He & -> & Hs)]];
    [done..|]. cbn [snd]. eapply step_get; [exact Hs|congruence].
Qed.

Lemma get_requests_read_only_witness :
  Main.users (Main.app (request GET ["users"; "1"] None) kim_only).2
  = Main.users kim_only.
Proof.
  apply (get_requests_read_only (request GET ["users"; "1"] None) kim_only).
  reflexivity.
Defined.

(** ** Updates without a body *)

(** X3. An update request without a body is bound to [data = None]: on a
    stored id the handler fails on [data.username] with a server error, on
    an id that is not stored it answers 404 first.  The table is unchanged
    both times.  The id is one that SQLite can take as a parameter. *)
Theorem bodyless_update (n : Z) (db : Main.Database) :
  1 ≤ n < 2 ^ 63 →
  let out := Main.app (request PUT ["users"; Py.str n] None) db in
  out.1 = match Main.users db !! n with
          | Some _ => InternalServerError
          | None => NotFound "User not found"
          end
  ∧ Main.users out.2 = Main.users db.
Proof.
  intros [Hn _] out. subst out. unfold Main.app, request. cbn [method path].
  rewrite route_users_id by apply str_nonempty.
  unfold Main.endpoint, Main.bind_update_body. run.
  rewrite (bind_user_id_ok _ n) by auto using int_str.
  cbn [body]. run. unfold Main.update_user. run.
  destruct db as [t cs]; simpl in *. by destruct (t !! n).
Qed.

Lemma bodyless_update_witness :
  (Main.app (request PUT ["users"; Py.str 1] None) kim_only).1 = InternalServerError
  ∧ Main.users (Main.app (request PUT ["users"; Py.str 1] None) kim_only).2
    = Main.users kim_only.
Proof. apply (bodyless_update 1 kim_only). lia. Defined.

(** ** Stored fields stay within their bounds *)

Lemma validate_create_bounds (b : option JsonBody) (d : Main.UserCreateRequest.t) :
  b ≫= Main.UserCreateRequest.validate = Some d → row_valid (row_of d).
Proof.
  destruct b as [j|]; [|done]. simpl. unfold Main.UserCreateRequest.validate.
  destruct (j_username j) as [u|], (j_age j) as [a|], (j_gender j) as [g|]; try done.
  destruct (Gender.validate g); [|done].
  destruct (Field.length_ok 1 50 u && Field.ge_le 0 120 a) eqn:E; [|done].
  intros [= <-]. unfold Field.length_ok, Field.ge_le in E.
  unfold row_valid, row_of. simpl.
  repeat (apply andb_true_iff in E as [E ?]). lia.
Qed.

Lemma validate_update_bounds (j : JsonBody) (d : Main.UserUpdateRequest.t) :
  Main.UserUpdateRequest.validate j = Some d →
  username_ok (Main.UserUpdateRequest.username d)
  ∧ age_ok (Main.UserUpdateRequest.age d).
Proof.
  destruct j as [u a g]. rewrite validate_update. case_decide; [|done].
  by intros [= <-].
Qed.

Lemma updated_valid (d : Main.UserUpdateRequest.t) (r : Main.Row) :
  username_ok (Main.UserUpdateRequest.username d) →
  age_ok (Main.UserUpdateRequest.age d) →
  row_valid r → row_valid (updated d r).
Proof.
  destruct d as [[u|] [a|]], r as [ru ra rg]; unfold row_valid, updated; simpl; lia.
Qed.

Lemma step_invariants db req e res t :
  Step db req e res t →
  Main.positive_ids db ∧ rows_valid db →
  map_Forall (λ i _, 1 ≤ i) t ∧ map_Forall (λ _ r, row_valid r) t.
Proof.
  unfold Main.positive_ids, rows_valid.
  intros [e' res' Hq|data Hd|n r j data Hn Hr Hb Hj|n r Hn Hr] [Hpos Hval].
  - done.
  - split; apply map_Forall_insert_2; try done.
    + by apply next_rowid_positive.
    + by eapply validate_create_bounds.
  - apply validate_update_bounds in Hj as [Hu Ha].
    split; apply map_Forall_insert_2; try done.
    apply updated_valid; try done. apply (Hval n r Hr).
  - split; by apply map_Forall_delete.
Qed.

Lemma app_invariants req db :
  Main.positive_ids db ∧ rows_valid db →
  Main.positive_ids (Main.app req db).2 ∧ rows_valid (Main.app req db).2.
Proof.
  intros H. destruct (app_cases req db) as [-> | [-> | (e & ps & He & -> & Hs)]];
    [done..|]. by eapply step_invariants.
Qed.

(** X4. Whatever requests are served from an empty table, every stored id
    is at least 1, every stored username has 1 to 50 characters and every
    stored age lies in 0..120: validation comes before every write. *)
Theorem reachable_store_invariants (reqs : list Request) :
  let db := (Main.serve reqs Main.empty_database).2 in
  ∀ i r, Main.users db !! i = Some r →
    1 ≤ i ∧ 1 ≤ Py.len (Main.row_username r) ≤ 50 ∧ 0 ≤ Main.row_age r ≤ 120.
Proof.
  assert (∀ db, Main.positive_ids db ∧ rows_valid db →
            Main.positive_ids (Main.serve reqs db).2
            ∧ rows_valid (Main.serve reqs db).2) as H.
  { induction reqs as [|req reqs IH]; intros db Hdb; [done|]. simpl.
    pose proof (app_invariants req db Hdb) as H.
    destruct (Main.app req db) as [r db']. specialize (IH db' H).
    by destruct (Main.serve reqs db'). }
  intros db i r Hr. destruct (H Main.empty_database) as [Hpos Hval].
  { split; apply map_Forall_empty. }
  split; [apply (Hpos i r Hr)|apply (Hval i r Hr)].
Qed.

Lemma reachable_store_invariants_witness :
  1 ≤ 1 ∧ 1 ≤ Py.len "kim" ≤ 50 ∧ 0 ≤ 20 ≤ 120.
Proof.
  apply (reachable_store_invariants
           [request POST ["users"] (Some (user_json "kim" 20 "male"))] 1 kim_row).
  reflexivity.
Defined.

(** ** New ids *)

Lemma next_rowid_spec (t : gmap Z Main.Row) (x : Z) :
  is_Some (t !! (x - 1)) → (∀ k, is_Some (t !! k) → k < x) → Main.next_rowid t = x.
Proof.
  intros Hx Hlt. unfold Main.next_rowid, Main.largest_rowid.
  destruct (Main.largest _) as [m|] eqn:E.
  - apply largest_Some in E as [Hm Hle]. apply keys_lookup in Hm.
    specialize (Hlt m Hm). apply keys_lookup in Hx. specialize (Hle _ Hx). lia.
  - apply largest_None in E. apply keys_lookup in Hx. rewrite E in Hx.
    by apply elem_of_nil in Hx.
Qed.

Lemma next_rowid_insert_new (t : gmap Z Main.Row) (r : Main.Row) :
  Main.next_rowid (<[Main.next_rowid t := r]> t) = Main.next_rowid t + 1.
Proof.
  apply next_rowid_spec.
  - replace (Main.next_rowid t + 1 - 1) with (Main.next_rowid t) by lia.
    rewrite lookup_insert_eq. by eexists.
  - intros k Hk. destruct (decide (Main.next_rowid t = k)) as [<-|Hne]; [lia|].
    rewrite lookup_insert_ne in Hk by done.
    apply created_id_above_stored in Hk. lia.
Qed.

Lemma next_rowid_insert_stored (t : gmap Z Main.Row) (n : Z) (r : Main.Row) :
  is_Some (t !! n) → Main.next_rowid (<[n := r]> t) = Main.next_rowid t.
Proof.
  intros Hn. assert (∀ k, is_Some (<[n := r]> t !! k) ↔ is_Some (t !! k)) as Hdom.
  { intros k. destruct (decide (n = k)) as [<-|Hne].
    - rewrite lookup_insert_eq. split; [done|by eexists].
    - by rewrite lookup_insert_ne. }
  unfold Main.next_rowid at 2, Main.largest_rowid.
  destruct (Main.largest _) as [m|] eqn:E.
  - apply largest_Some in E as [Hm Hle]. apply next_rowid_spec.
    + replace (m + 1 - 1) with m by lia. by apply Hdom, keys_lookup.
    + intros k Hk%Hdom%keys_lookup. specialize (Hle k Hk). lia.
  - apply largest_None in E. apply keys_lookup in Hn. rewrite E in Hn.
    by apply elem_of_nil in Hn.
Qed.

Lemma step_next_rowid db req e res t :
  Step db req e res t → e ≠ Main.delete_user_endpoint →
  Main.next_rowid (Main.users db) ≤ Main.next_rowid t
  ∧ ∀ i, Main.respond res = OK (Main.IdContent i) →
         i = Main.next_rowid (Main.users db) ∧ Main.next_rowid t = i + 1.
Proof.
  intros [e' res' Hq|data Hd|n r j data Hn Hr Hb Hj|n r Hn Hr] He; [| | |done].
  - split; [lia|]. intros i Hi. destruct res' as [[]|[]]; simpl in *; done.
  - rewrite next_rowid_insert_new. split; [lia|]. by intros i [= <-].
  - rewrite next_rowid_insert_stored by by eexists. split; [lia|]. by intros i [=].
Qed.

Lemma app_next_rowid req db :
  method req ≠ DELETE →
  Main.next_rowid (Main.users db) ≤ Main.next_rowid (Main.users (Main.app req db).2)
  ∧ ∀ i, (Main.app req db).1 = OK (Main.IdContent i) →
         i = Main.next_rowid (Main.users db)
         ∧ Main.next_rowid (Main.users (Main.app req db).2) = i + 1.
Proof.
  intros Hm. destruct (app_cases req db) as [-> | [-> | (e & ps & He & -> & Hs)]];
    [by split; [simpl; lia|]..|].
  apply (step_next_rowid _ _ _ _ _ Hs). intros ->. by rewrite He in Hm.
Qed.

Lemma serve_created_ids (reqs : list Request) (db : Main.Database) :
  Forall (λ req, method req ≠ DELETE) reqs →
  let ids := created (Main.serve reqs db).1 in
  StronglySorted Z.lt ids
  ∧ Forall (λ i, Main.next_rowid (Main.users db) ≤ i) ids.
Proof.
  revert db. induction reqs as [|req reqs IH]; intros db Hreqs; simpl.
  { split; constructor. }
  apply Forall_cons in Hreqs as [Hreq Hreqs].
  destruct (app_next_rowid req db Hreq) as [Hle Hid].
  destruct (Main.app req db) as [r db'] eqn:Happ. simpl in Hle, Hid.
  specialize (IH db' Hreqs). destruct (Main.serve reqs db') as [rs db''].
  simpl in *. destruct IH as [Hsorted Hall].
  assert (Forall (λ i, Main.next_rowid (Main.users db) ≤ i) (created rs)) as Hall'.
  { eapply Forall_impl; [exact Hall|]. simpl. lia. }
  destruct r as [[i| | |]| | | | |]; simpl; try done.
  destruct (Hid i eq_refl) as [-> Hnext]. split.
  - constructor; [done|]. eapply Forall_impl; [exact Hall|]. simpl. lia.
  - constructor; [lia|done].
Qed.

(** X5. As long as no DELETE request is served, the ids that the creates
    of the relational variant return are each above all the ids returned
    before and above every id stored at the start; from a table with
    positive ids they are positive. *)
Theorem ids_increase_without_delete (reqs : list Request) (db : Main.Database) :
  Forall (λ req, method req ≠ DELETE) reqs → Main.positive_ids db →
  let ids := created (Main.serve reqs db).1 in
  StronglySorted Z.lt ids
  ∧ Forall (λ i, 1 ≤ i ∧ ∀ k, is_Some (Main.users db !! k) → k < i) ids.
Proof.
  intros Hreqs Hpos ids. destruct (serve_created_ids reqs db Hreqs) as [Hsorted Hall].
  split; [done|]. eapply Forall_impl; [exact Hall|]. simpl. intros i Hi. split.
  - pose proof (next_rowid_positive _ Hpos). lia.
  - intros k Hk%created_id_above_stored. lia.
Qed.

Lemma ids_increase_without_delete_witness :
  let ids := created (Main.serve
                        [request POST ["users"] (Some (user_json "lee" 31 "female"));
                         request PUT ["users"; "1"] (Some (update_json None (Some 21)));
                         request POST ["users"] (Some (user_json "lee" 31 "female"))]
                        kim_only).1 in
  StronglySorted Z.lt ids
  ∧ Forall (λ i, 1 ≤ i ∧ ∀ k, is_Some (Main.users kim_only !! k) → k < i) ids.
Proof.
  apply ids_increase_without_delete.
  - repeat constructor; discriminate.
  - apply positive_ids_kim_only.
Defined.

(** X6. A create with valid fields adds exactly one row: the returned id
    was not stored and is above every stored id, the new row holds the
    input fields, and every other id keeps what it had. *)
Theorem create_adds_one_row (u : string) (a : Z) (g : GenderEnum) (db : Main.Database) :
  1 ≤ Py.len u ≤ 50 → 0 ≤ a ≤ 120 →
  let out := Main.app (request POST ["users"] (Some (user_json u a (Gender.value g)))) db in
  ∃ i, out.1 = OK (Main.IdContent i)
       ∧ Main.users db !! i = None
       ∧ (∀ k, is_Some (Main.users db !! k) → k < i)
       ∧ Main.users out.2 !! i
         = Some {| Main.row_username := u; Main.row_age := a; Main.row_gender := g |}
       ∧ ∀ k, k ≠ i → Main.users out.2 !! k = Main.users db !! k.
Proof.
  intros Hu Ha out. subst out. unfold request.
  erewrite app_post;
    [|rewrite validate_create, gender_validate_value; by rewrite decide_True].
  exists (Main.next_rowid (Main.users db)). simpl.
  split; [done|]. split; [apply next_rowid_fresh|].
  split; [apply created_id_above_stored|]. split; [by rewrite lookup_insert_eq|].
  intros k Hk. by rewrite lookup_insert_ne.
Qed.

Lemma create_adds_one_row_witness :
  let out := Main.app (request POST ["users"] (Some (user_json "lee" 31 (Gender.value female))))
                      kim_only in
  ∃ i, out.1 = OK (Main.IdContent i)
       ∧ Main.users kim_only !! i = None
       ∧ (∀ k, is_Some (Main.users kim_only !! k) → k < i)
       ∧ Main.users out.2 !! i
         = Some {| Main.row_username := "lee"; Main.row_age := 31;
                   Main.row_gender := female |}
       ∧ ∀ k, k ≠ i → Main.users out.2 !! k = Main.users kim_only !! k.
Proof.
  apply (create_adds_one_row "lee" 31 female kim_only).
  - vm_compute. split; discriminate.
  - lia.
Defined.

(** X7. Usernames are not unique: creating the same valid input twice
    gives two different ids, and both rows are stored with the same
    fields. *)
Theorem duplicate_users_allowed (u : string) (a : Z) (g : GenderEnum) (db : Main.Database) :
  1 ≤ Py.len u ≤ 50 → 0 ≤ a ≤ 120 →
  let req := request POST ["users"] (Some (user_json u a (Gender.value g))) in
  let row := {| Main.row_username := u; Main.row_age := a; Main.row_gender := g |} in
  let out1 := Main.app req db in
  let out2 := Main.app req out1.2 in
  ∃ i, out1.1 = OK (Main.IdContent i) ∧ out2.1 = OK (Main.IdContent (i + 1))
       ∧ Main.users out2.2 !! i = Some row
       ∧ Main.users out2.2 !! (i + 1) = Some row.
Proof.
  intros Hu Ha req row out1 out2. subst out2 out1 req row. unfold request.
  assert (Main.UserCreateRequest.validate (user_json u a (Gender.value g))
          = Some {| Main.UserCreateRequest.username := u;
                    Main.UserCreateRequest.age := a;
                    Main.UserCreateRequest.gender := g |}) as Hv.
  { rewrite validate_create, gender_validate_value. by rewrite decide_True. }
  rewrite !(app_post _ _ _ _ Hv). exists (Main.next_rowid (Main.users db)).
  cbn [fst snd after Main.users]. rewrite next_rowid_insert_new.
  split; [done|]. split; [done|]. split.
  - rewrite lookup_insert_ne by lia. by rewrite lookup_insert_eq.
  - by rewrite lookup_insert_eq.
Qed.

Lemma duplicate_users_allowed_witness :
  let req := request POST ["users"] (Some (user_json "kim" 20 (Gender.value male))) in
  let out1 := Main.app req kim_only in
  let out2 := Main.app req out1.2 in
  ∃ i, out1.1 = OK (Main.IdContent i) ∧ out2.1 = OK (Main.IdContent (i + 1))
       ∧ Main.users out2.2 !! i = Some kim_row
       ∧ Main.users out2.2 !! (i + 1) = Some kim_row.
Proof.
  apply (duplicate_users_allowed "kim" 20 male kim_only).
  - vm_compute. split; discriminate.
  - lia.
Defined.

(** ** Requests on one id *)

(** X8. Deleting a stored user removes that row and no other; a second
    delete of the same id is a 404 and changes nothing. *)
Theorem delete_removes_one_row (n : Z) (r : Main.Row) (db : Main.Database) :
  Main.positive_ids db → Main.users db !! n = Some r →
  let req := request DELETE ["users"; Py.str n] None in
  let out := Main.app req db in
  Main.users out.2 !! n = None
  ∧ (∀ k, k ≠ n → Main.users out.2 !! k = Main.users db !! k)
  ∧ (Main.app req out.2).1 = NotFound "User not found"
  ∧ Main.users (Main.app req out.2).2 = Main.users out.2.
Proof.
  intros Hpos Hr req out. subst out req. unfold request.
  pose proof (positive_id db n r Hpos Hr) as Hn.
  rewrite (app_delete n r) by done. cbn [fst snd after Main.users].
  split; [apply lookup_delete_eq|]. split; [intros k Hk; by apply lookup_delete_ne|].
  unfold Main.app. cbn [method path]. rewrite route_users_id by apply str_nonempty.
  unfold Main.endpoint. run. rewrite (bind_user_id_ok _ n) by auto using int_str.
  rewrite delete_user_run. cbn [after Main.users]. by rewrite lookup_delete_eq.
Qed.

Lemma delete_removes_one_row_witness :
  let req := request DELETE ["users"; Py.str 1] None in
  let out := Main.app req kim_only in
  Main.users out.2 !! 1 = None
  ∧ (∀ k, k ≠ 1 → Main.users out.2 !! k = Main.users kim_only !! k)
  ∧ (Main.app req out.2).1 = NotFound "User not found"
  ∧ Main.users (Main.app req out.2).2 = Main.users out.2.
Proof.
  apply (delete_removes_one_row 1 kim_row kim_only).
  - apply positive_ids_kim_only.
  - reflexivity.
Defined.

(** X9. An update with valid fields is committed before it fails: the
    given fields are written over the stored row, the other fields and
    every other id stay as they were, and only then the handler fails in
    [UserResponse.model_validate], so that the answer is a server error
    although the change is stored. *)
Theorem update_commits_before_failing (n : Z) (r : Main.Row) (uo : option string)
    (ao : option Z) (db : Main.Database) :
  Main.positive_ids db → Main.users db !! n = Some r →
  username_ok uo → age_ok ao →
  let r' := {| Main.row_username := default (Main.row_username r) uo;
               Main.row_age := default (Main.row_age r) ao;
               Main.row_gender := Main.row_gender r |} in
  let out := Main.app (request PUT ["users"; Py.str n] (Some (update_json uo ao))) db in
  out.1 = InternalServerError
  ∧ Main.users out.2 !! n = Some r'
  ∧ (∀ k, k ≠ n → Main.users out.2 !! k = Main.users db !! k).
Proof.
  intros Hpos Hr Hu Ha r' out. subst out r'. unfold request, update_json.
  pose proof (positive_id db n r Hpos Hr) as Hn.
  rewrite (app_put n r _ {| Main.UserUpdateRequest.username := uo;
                            Main.UserUpdateRequest.age := ao |}); [|done..|].
  - cbn [fst snd after Main.users]. split; [done|].
    split; [by rewrite lookup_insert_eq|].
    intros k Hk. by rewrite lookup_insert_ne.
  - rewrite validate_update. by rewrite decide_True.
Qed.

Lemma update_commits_before_failing_witness :
  let out := Main.app (request PUT ["users"; Py.str 1]
                         (Some (update_json (Some "kang") (Some 21)))) kim_only in
  out.1 = InternalServerError
  ∧ Main.users out.2 !! 1
    = Some {| Main.row_username := "kang"; Main.row_age := 21; Main.row_gender := male |}
  ∧ (∀ k, k ≠ 1 → Main.users out.2 !! k = Main.users kim_only !! k).
Proof.
  apply (update_commits_before_failing 1 kim_row (Some "kang") (Some 21) kim_only).
  - apply positive_ids_kim_only.
  - reflexivity.
  - vm_compute. split; discriminate.
  - simpl. lia.
Defined.

(** X10. On an id that is not stored (and that SQLite can take as a
    parameter), a get, a delete and an update with valid fields are each
    answered 404 with the detail [User not found], and the table is
    unchanged. *)
Theorem missing_id_is_not_found (n : Z) (uo : option string) (ao : option Z)
    (db : Main.Database) :
  1 ≤ n < 2 ^ 63 → Main.users db !! n = None → username_ok uo → age_ok ao →
  let answers req :=
    (Main.app req db).1 = NotFound "User not found"
    ∧ Main.users (Main.app req db).2 = Main.users db in
  answers (request GET ["users"; Py.str n] None)
  ∧ answers (request DELETE ["users"; Py.str n] None)
  ∧ answers (request PUT ["users"; Py.str n] (Some (update_json uo ao))).
Proof.
  intros [Hn _] Hr Hu Ha answers. subst answers. cbv beta. unfold request.
  split; [|split].
  - rewrite app_get by done. by rewrite Hr.
  - unfold Main.app. cbn [method path]. rewrite route_users_id by apply str_nonempty.
    unfold Main.endpoint. run. rewrite (bind_user_id_ok _ n) by auto using int_str.
    by rewrite delete_user_run, Hr.
  - unfold Main.app. cbn [method path]. rewrite route_users_id by apply str_nonempty.
    unfold Main.endpoint, Main.bind_update_body. run.
    rewrite (bind_user_id_ok _ n) by auto using int_str.
    cbn [body]. unfold update_json. rewrite validate_update, decide_True by done.
    run. by rewrite update_user_absent.
Qed.

Lemma missing_id_is_not_found_witness :
  let answers req :=
    (Main.app req kim_only).1 = NotFound "User not found"
    ∧ Main.users (Main.app req kim_only).2 = Main.users kim_only in
  answers (request GET ["users"; Py.str 7] None)
  ∧ answers (request DELETE ["users"; Py.str 7] None)
  ∧ answers (request PUT ["users"; Py.str 7] (Some (update_json None (Some 30)))).
Proof.
  apply (missing_id_is_not_found 7 None (Some 30) kim_only).
  - lia.
  - reflexivity.
  - exact I.
  - simpl. lia.
Defined.

(** X11. An update whose [username] or [age] breaks its constraint is
    answered with a validation error whatever the id, stored or not, and
    before any session call. *)
Theorem invalid_update_rejected_first (n : Z) (uo : option string) (ao : option Z)
    (g : option string) (db : Main.Database) :
  ¬ (username_ok uo ∧ age_ok ao) →
  Main.app (request PUT ["users"; Py.str n]
              (Some {| j_username := uo; j_age := ao; j_gender := g |})) db
  = (ValidationError, db).
Proof.
  intros Hbad. unfold request. destruct (decide (1 ≤ n)) as [Hn|Hn].
  - apply app_put_invalid; [done|]. rewrite validate_update. by rewrite decide_False.
  - unfold Main.app. cbn [method path]. rewrite route_users_id by apply str_nonempty.
    unfold Main.endpoint. run.
    by rewrite (bind_user_id_bad _ n) by (auto using int_str || lia).
Qed.

Lemma invalid_update_rejected_first_witness :
  Main.app (request PUT ["users"; Py.str 7]
              (Some {| j_username := Some ""; j_age := None; j_gender := None |}))
           kim_only
  = (ValidationError, kim_only).
Proof.
  apply (invalid_update_rejected_first 7 (Some "") None None kim_only).
  intros [H _]. vm_compute in H. destruct H as [H _]. by apply H.
Defined.

(** ** Which create requests are accepted *)

Lemma validate_create_Some (j : JsonBody) :
  is_Some (Main.UserCreateRequest.validate j)
  ↔ ∃ u a g, j = user_json u a g ∧ valid_user u a g.
Proof.
  split.
  - intros H. destruct j as [[u|] [a|] [g|]];
      try (destruct H as [d H]; discriminate H).
    exists u, a, g. split; [done|]. by apply validate_create_valid.
  - intros (u & a & g & -> & H). by apply validate_create_valid.
Qed.

(** X12. In both variants a create request is accepted exactly when its
    body has all three fields with a username of 1 to 50 characters, an
    age in 0..120 and a gender that is [male] or [female]; any other
    request to create, one without a body too, is answered with a
    validation error and leaves the store exactly as it was. *)
Theorem create_accepts_exactly_valid (b : option JsonBody)
    (db : Main.Database) (st : Users.State) :
  let valid := ∃ u a g, b = Some (user_json u a g) ∧ valid_user u a g in
  (valid →
     (Main.app (request POST ["users"] b) db).1
       = OK (Main.IdContent (Main.next_rowid (Main.users db)))
     ∧ (Users.app (request POST ["users"] b) st).1 = OK (Users.user_id_counter st))
  ∧ (¬ valid →
     Main.app (request POST ["users"] b) db = (ValidationError, db)
     ∧ Users.app (request POST ["users"] b) st = (ValidationError, st)).
Proof.
  intros valid. subst valid. split.
  - intros (u & a & g & -> & Hv).
    by rewrite main_create_response, users_create_response, !decide_True.
  - intros Hbad. destruct b as [j|].
    + assert (Main.UserCreateRequest.validate j = None) as Hj.
      { apply eq_None_not_Some. intros (u & a & g & -> & Hv)%validate_create_Some.
        apply Hbad. by exists u, a, g. }
      split; [by apply app_post_invalid|].
      unfold Users.app, request. cbn [method path body].
      change (route Users.routes POST ["users"]) with (Full Users.create_user_endpoint []).
      cbn [mbind option_bind]. by rewrite users_validate_eq, Hj.
    + done.
Qed.

Lemma create_accepts_exactly_valid_witness :
  ((Main.app (request POST ["users"] (Some (user_json "kim" 20 "male"))) kim_only).1
     = OK (Main.IdContent (Main.next_rowid (Main.users kim_only)))
   ∧ (Users.app (request POST ["users"] (Some (user_json "kim" 20 "male")))
                Users.initial).1 = OK (Users.user_id_counter Users.initial))
  ∧ (Main.app (request POST ["users"] None) kim_only = (ValidationError, kim_only)
     ∧ Users.app (request POST ["users"] None) Users.initial
       = (ValidationError, Users.initial)).
Proof.
  split.
  - apply (create_accepts_exactly_valid (Some (user_json "kim" 20 "male"))
             kim_only Users.initial).
    exists "kim", 20, "male". split; [done|].
    split; [vm_compute; split; discriminate|]. split; [lia|by left].
  - apply (create_accepts_exactly_valid None kim_only Users.initial).
    by intros (u & a & g & [=] & _).
Defined.

(** ** Methods that no route takes *)

(** X13. The collection path takes POST and GET only, and a path with an
    id takes no POST: such requests are answered 405 and nothing is
    touched. *)
Theorem method_not_allowed (q : QueryString) (b : option JsonBody) (db : Main.Database) :
  (∀ m, m = PUT ∨ m = DELETE →
     Main.app {| method := m; path := ["users"]; query := q; body := b |} db
     = (MethodNotAllowed, db))
  ∧ (∀ s, s ≠ "" →
     Main.app {| method := POST; path := ["users"; s]; query := q; body := b |} db
     = (MethodNotAllowed, db)).
Proof.
  split.
  - by intros m [-> | ->].
  - intros s Hs. unfold Main.app. cbn [method path]. by rewrite route_users_id.
Qed.

Lemma method_not_allowed_witness :
  Main.app (request DELETE ["users"] None) kim_only = (MethodNotAllowed, kim_only)
  ∧ Main.app (request POST ["users"; "1"] (Some (user_json "kim" 20 "male"))) kim_only
    = (MethodNotAllowed, kim_only).
Proof.
  destruct (method_not_allowed no_query None kim_only) as [H1 _].
  destruct (method_not_allowed no_query (Some (user_json "kim" 20 "male")) kim_only)
    as [_ H2].
  split; [apply (H1 DELETE); by right|apply (H2 "1"); discriminate].
Defined.

(** ** The search handler, reached directly *)

Lemma search_filter_nil (u : string) (a : Z) (g : GenderEnum) (t : gmap Z Main.Row) :
  filter (λ x, Main.UserModel.username x = u ∧ Main.UserModel.age x = a
               ∧ Main.UserModel.gender x = g) (Main.scan t) = []
  ↔ ∀ i r, t !! i = Some r → ¬ row_matches u a g r.
Proof.
  split.
  - intros Hnil i r Hr Hm.
    assert (Main.UserModel.of_row i r ∈ filter (λ x, Main.UserModel.username x = u
              ∧ Main.UserModel.age x = a ∧ Main.UserModel.gender x = g) (Main.scan t))
      as Hin.
    { apply list_elem_of_filter. split; [exact Hm|].
      apply elem_of_scan. simpl. by destruct r. }
    rewrite Hnil in Hin. by apply elem_of_nil in Hin.
  - intros Hno. destruct (filter _ _) as [|x xs] eqn:E; [done|]. exfalso.
    assert (x ∈ x :: xs) as Hin by (apply elem_of_cons; by left).
    rewrite <- E in Hin. apply list_elem_of_filter in Hin as [Hm Hx].
    apply elem_of_scan in Hx. by apply (Hno _ _ Hx).
Qed.

(** X14. The search endpoint by itself, given a username of 1 to 50
    characters, an age above 0 and a member of the enumeration: it answers
    404 [No matching users found] when no stored row agrees with the query
    on all three fields; when a row agrees, the handler fails in
    [UserResponse.model_validate] and the answer is a server error, as it
    is for an age that does not fit 64 bits.  The table is unchanged. *)
Theorem search_handler_outcomes (u : string) (a : Z) (g : GenderEnum) (db : Main.Database) :
  1 ≤ Py.len u ≤ 50 → 0 < a →
  let out := Main.endpoint Main.search_users_endpoint []
               {| method := GET; path := ["users"; "search"];
                  query := search_query u a (Gender.value g); body := None |} db in
  (a < 2 ^ 63 → (∀ i r, Main.users db !! i = Some r → ¬ row_matches u a g r) →
     Main.respond out.1 = NotFound "No matching users found")
  ∧ ((∃ i r, Main.users db !! i = Some r ∧ row_matches u a g r) ∨ 2 ^ 63 ≤ a →
     Main.respond out.1 = InternalServerError)
  ∧ Main.users out.2 = Main.users db.
Proof.
  intros Hu Ha out. subst out. rewrite search_endpoint_valid_age by done.
  rewrite search_users_run;
    [|unfold Field.length_ok; apply andb_true_iff; split; apply Z.leb_le; lia|done].
  cbn [fst snd after Main.users]. unfold Main.int64.
  pose proof (search_filter_nil u a g (Main.users db)) as Hnil.
  destruct (Z.leb_spec (- 2 ^ 63) a); [|lia].
  destruct (Z.ltb_spec a (2 ^ 63)); simpl.
  - destruct (filter _ _) as [|x xs].
    + split; [done|]. split; [|done].
      intros [(i & r & Hr & Hm)|?]; [|lia]. destruct Hnil as [Hnil _].
      by destruct (Hnil eq_refl i r Hr).
    + split; [|done]. intros _ Hno. apply Hnil in Hno. discriminate Hno.
  - split; [intros; lia|done].
Qed.

Lemma search_handler_outcomes_witness :
  Main.respond
    (Main.endpoint Main.search_users_endpoint []
       {| method := GET; path := ["users"; "search"];
          query := search_query "kim" 21 (Gender.value male); body := None |} kim_only).1
  = NotFound "No matching users found"
  ∧ Main.respond
      (Main.endpoint Main.search_users_endpoint []
         {| method := GET; path := ["users"; "search"];
            query := search_query "kim" 20 (Gender.value male); body := None |} kim_only).1
    = InternalServerError.
Proof.
  assert (Hu : 1 ≤ Py.len "kim" ≤ 50) by (vm_compute; split; discriminate).
  split.
  - destruct (search_handler_outcomes "kim" 21 male kim_only Hu) as (H & _ & _); [lia|].
    apply H; [lia|]. intros i r Hr [_ [Hage _]].
    destruct (decide (i = 1)) as [->|Hne].
    + injection Hr as <-. discriminate Hage.
    + unfold kim_only in Hr. simpl in Hr. by rewrite lookup_singleton_ne in Hr.
  - destruct (search_handler_outcomes "kim" 20 male kim_only Hu) as (_ & H & _); [lia|].
    apply H. left. by exists 1, kim_row.
Defined.

(** ** The in-memory store *)

Lemma users_app_effect (req : Request) (st : Users.State) :
  (∃ d, body req ≫= Users.UserCreate.validate = Some d
        ∧ Users.app req st
          = (OK (Users.user_id_counter st),
             {| Users.fake_db :=
                  <[Users.user_id_counter st :=
                      users_record (Users.user_id_counter st)
                        (Users.UserCreate.username d) (Users.UserCreate.age d)
                        (Users.UserCreate.gender d)]> (Users.fake_db st);
                Users.user_id_counter := Users.user_id_counter st + 1 |}))
  ∨ (∃ r, Users.app req st = (r, st) ∧ issued [r] = []).
Proof.
  unfold Users.app. destruct (route _ _ _) as [[] ?| |].
  - destruct (body req ≫= Users.UserCreate.validate) as [d|].
    + left. by exists d.
    + right. by eexists.
  - right. by eexists.
  - right. by eexists.
Qed.

Lemma users_serve_effect (reqs : list Request) (st : Users.State) :
  users_wf st →
  let out := Users.serve reqs st in
  let n := Z.of_nat (length (issued out.1)) in
  issued out.1 = seqZ (Users.user_id_counter st) n
  ∧ Users.user_id_counter out.2 = Users.user_id_counter st + n
  ∧ users_wf out.2
  ∧ (∀ k, is_Some (Users.fake_db out.2 !! k)
          ↔ is_Some (Users.fake_db st !! k)
            ∨ Users.user_id_counter st ≤ k < Users.user_id_counter st + n)
  ∧ (∀ k u, Users.fake_db st !! k = Some u → Users.fake_db out.2 !! k = Some u).
Proof.
  revert st. induction reqs as [|req reqs IH]; intros st Hwf; simpl.
  { rewrite seqZ_nil by lia. split; [done|]. split; [lia|]. split; [done|].
    split; [|done]. intros k. split; [by left|]. intros [?|?]; [done|lia]. }
  destruct (users_app_effect req st) as [(d & Hd & ->)|(r & -> & Hr)].
  - set (c := Users.user_id_counter st).
    set (st' := {| Users.fake_db := _; Users.user_id_counter := c + 1 |}).
    assert (users_wf st') as Hwf'.
    { destruct Hwf as [Hc Hall]. split; [simpl; lia|]. simpl.
      apply map_Forall_insert_2; [simpl; lia|].
      eapply map_Forall_impl; [exact Hall|]. simpl. intros k u [? ?]. fold c. lia. }
    specialize (IH st' Hwf'). destruct (Users.serve reqs st') as [rs st''].
    cbn [fst snd] in *. change (issued (OK c :: rs)) with (c :: issued rs).
    destruct IH as (Hids & Hcnt & Hwf'' & Hdom & Hkeep).
    cbn [length]. rewrite Nat2Z.inj_succ.
    set (n := Z.of_nat (length (issued rs))) in *.
    split; [|split; [|split; [|split]]].
    + rewrite seqZ_cons by lia. f_equal. rewrite Z.pred_succ.
      replace (Z.succ c) with (c + 1) by lia. exact Hids.
    + rewrite Hcnt. simpl. lia.
    + done.
    + intros k. rewrite Hdom. simpl. destruct (decide (c = k)) as [<-|Hne].
      * rewrite lookup_insert_eq. split; [intros _; right; lia|left; by eexists].
      * rewrite lookup_insert_ne by done. split; intros [?|?]; auto; right; lia.
    + intros k u Hk. apply Hkeep. simpl.
      destruct Hwf as [_ Hall]. pose proof (Hall k u Hk) as [Hlt _]. simpl in Hlt.
      rewrite lookup_insert_ne; [done|]. fold c in Hlt. lia.
  - specialize (IH st Hwf). destruct (Users.serve reqs st) as [rs st''].
    cbn [fst snd] in *. by destruct r; [discriminate Hr|exact IH..].
Qed.

Lemma users_wf_initial : users_wf Users.initial.
Proof. split; [simpl; lia|apply map_Forall_empty]. Qed.

(** X15. Served from the fresh module state, the in-memory variant hands
    out the ids 1, 2, 3, ... in order, one for each accepted create; the
    counter is one above the number of users created, the keys of
    [fake_db] are exactly the ids handed out, and every record is stored
    under its own id. *)
Theorem in_memory_ids_are_consecutive (reqs : list Request) :
  let out := Users.serve reqs Users.initial in
  let n := Z.of_nat (length (issued out.1)) in
  issued out.1 = seqZ 1 n
  ∧ Users.user_id_counter out.2 = 1 + n
  ∧ (∀ k, is_Some (Users.fake_db out.2 !! k) ↔ 1 ≤ k ≤ n)
  ∧ (∀ k u, Users.fake_db out.2 !! k = Some u → Users.UserModel.id u = k).
Proof.
  destruct (users_serve_effect reqs Users.initial users_wf_initial)
    as (Hids & Hcnt & [_ Hwf] & Hdom & _).
  split; [done|]. split; [done|]. split.
  - intros k. rewrite Hdom. simpl. rewrite lookup_empty. split.
    + intros [[? [=]]|?]. lia.
    + intros ?. right. lia.
  - intros k u Hk. by destruct (Hwf k u Hk).
Qed.

(** X16. A valid create in the in-memory variant answers with the current
    counter, stores under that id a record with the input fields and that
    id, advances the counter by one and changes no other key. *)
Theorem in_memory_create_then_lookup (u : string) (a : Z) (g : GenderEnum)
    (st : Users.State) :
  1 ≤ Py.len u ≤ 50 → 0 ≤ a ≤ 120 →
  let i := Users.user_id_counter st in
  let out := Users.app (request POST ["users"] (Some (user_json u a (Gender.value g)))) st in
  out.1 = OK i
  ∧ Users.fake_db out.2 !! i = Some (users_record i u a g)
  ∧ Users.user_id_counter out.2 = i + 1
  ∧ ∀ k, k ≠ i → Users.fake_db out.2 !! k = Users.fake_db st !! k.
Proof.
  intros Hu Ha i out. subst out i. unfold Users.app, request. cbn [method path body].
  change (route Users.routes POST ["users"]) with (Full Users.create_user_endpoint []).
  cbn [mbind option_bind]. rewrite users_validate_eq, validate_create.
  rewrite gender_validate_value, decide_True by done. simpl.
  split; [done|]. split; [by rewrite lookup_insert_eq|]. split; [done|].
  intros k Hk. by rewrite lookup_insert_ne.
Qed.

Lemma in_memory_create_then_lookup_witness :
  let out := Users.app (request POST ["users"] (Some (user_json "kim" 20 (Gender.value male))))
                       Users.initial in
  out.1 = OK 1
  ∧ Users.fake_db out.2 !! 1 = Some (users_record 1 "kim" 20 male)
  ∧ Users.user_id_counter out.2 = 1 + 1
  ∧ ∀ k, k ≠ 1 → Users.fake_db out.2 !! k = Users.fake_db Users.initial !! k.
Proof.
  apply (in_memory_create_then_lookup "kim" 20 male Users.initial).
  - vm_compute. split; discriminate.
  - lia.
Defined.

(** X17. The in-memory variant never changes or drops a record: what is
    stored under an id after some requests is still stored under it after
    any further requests. *)
Theorem in_memory_records_persist (reqs more : list Request) (k : Z)
    (u : Users.UserModel.t) :
  Users.fake_db (Users.serve reqs Users.initial).2 !! k = Some u →
  Users.fake_db (Users.serve more (Users.serve reqs Users.initial).2).2 !! k = Some u.
Proof.
  intros Hk.
  destruct (users_serve_effect reqs Users.initial users_wf_initial)
    as (_ & _ & Hwf & _ & _).
  destruct (users_serve_effect more _ Hwf) as (_ & _ & _ & _ & Hkeep).
  by apply Hkeep.
Qed.

Lemma in_memory_records_persist_witness :
  let reqs := [request POST ["users"] (Some (user_json "kim" 20 "male"))] in
  let more := [request POST ["users"] (Some (user_json "lee" 31 "female"));
               request DELETE ["users"; "1"] None] in
  Users.fake_db (Users.serve more (Users.serve reqs Users.initial).2).2 !! 1
  = Some (users_record 1 "kim" 20 male).
Proof.
  intros reqs more. apply (in_memory_records_persist reqs more 1). reflexivity.
Defined.

(** ** Ids after a delete *)

Lemma next_rowid_le (t : gmap Z Main.Row) (x : Z) :
  1 ≤ x → (∀ k, is_Some (t !! k) → k < x) → Main.next_rowid t ≤ x.
Proof.
  intros Hx Hlt. unfold Main.next_rowid, Main.largest_rowid.
  destruct (Main.largest _) as [m|] eqn:E; [|done].
  apply largest_Some in E as [Hm _]. apply keys_lookup in Hm.
  specialize (Hlt m Hm). lia.
Qed.

(** X18. Once the record with the largest id has been deleted, the next
    create does not get an id above it: the id it returns is at most the
    deleted one, and is the deleted one again when the id just below is
    stored. *)
Theorem created_id_after_deleting_newest (n : Z) (r : Main.Row) (u : string) (a : Z)
    (g : GenderEnum) (db : Main.Database) :
  Main.positive_ids db → Main.users db !! n = Some r →
  (∀ k, is_Some (Main.users db !! k) → k ≤ n) →
  1 ≤ Py.len u ≤ 50 → 0 ≤ a ≤ 120 →
  let db' := (Main.app (request DELETE ["users"; Py.str n] None) db).2 in
  let out := Main.app (request POST ["users"] (Some (user_json u a (Gender.value g)))) db' in
  ∃ i, out.1 = OK (Main.IdContent i) ∧ 1 ≤ i ≤ n
       ∧ (is_Some (Main.users db !! (n - 1)) → i = n).
Proof.
  intros Hpos Hr Hmax Hu Ha db' out. subst out db'. unfold request.
  pose proof (positive_id db n r Hpos Hr) as Hn.
  rewrite (app_delete n r) by done. cbn [snd].
  erewrite app_post;
    [|rewrite validate_create, gender_validate_value; by rewrite decide_True].
  cbn [fst after Main.users]. eexists. split; [done|].
  assert (∀ k, is_Some (delete n (Main.users db) !! k) → k < n) as Hlt.
  { intros k Hk. destruct (decide (n = k)) as [<-|Hne].
    - rewrite lookup_delete_eq in Hk. by destruct Hk.
    - rewrite lookup_delete_ne in Hk by done. specialize (Hmax k Hk). lia. }
  split; [split|].
  - apply next_rowid_positive. by apply map_Forall_delete.
  - by apply next_rowid_le.
  - intros Hprev. apply next_rowid_spec; [|done].
    rewrite lookup_delete_ne by lia. done.
Qed.

Lemma created_id_after_deleting_newest_witness :
  let db' := (Main.app (request DELETE ["users"; Py.str 1] None) kim_only).2 in
  let out := Main.app (request POST ["users"] (Some (user_json "lee" 31 (Gender.value female))))
                      db' in
  ∃ i, out.1 = OK (Main.IdContent i) ∧ 1 ≤ i ≤ 1
       ∧ (is_Some (Main.users kim_only !! (1 - 1)) → i = 1).
Proof.
  apply (created_id_after_deleting_newest 1 kim_row "lee" 31 female kim_only).
  - apply positive_ids_kim_only.
  - reflexivity.
  - intros k Hk. destruct (decide (k = 1)) as [->|Hne]; [lia|].
    unfold kim_only in Hk. simpl in Hk. rewrite lookup_singleton_ne in Hk by done.
    by destruct Hk.
  - vm_compute. split; discriminate.
  - lia.
Defined.
